(** * GeoportalTH imagery download: tile identification and ID resolution

    A shallow embedding of [geothimagery/GeoportalTH_main.py] and
    [geothimagery/op_tile_finder.py].  Python functions that only compute are
    Rocq functions; functions that mutate the caller's tile list, touch the
    file system or talk to the portal run in a small state-and-exception
    monad over a [World].  Geometry, HTTP payloads and raster processing are
    external collaborators and appear as an environment record and as events
    of a trace. *)

From Stdlib Require Import ZArith String Ascii List Lia.
From Stdlib Require Import Decimal DecimalString DecimalZ DecimalPos.
From stdpp Require Import base option list strings gmap.

Local Open Scope string_scope.
Local Open Scope Z_scope.

(** ** Python built-ins used by the scripts *)

Module Py.

(** [str(n)] for an [int]: decimal digits, a leading minus sign for
    negative numbers, no leading zeros. *)
Definition str (n : Z) : string := NilEmpty.string_of_int (Z.to_int n).

(** The characters [int] skips around a numeral (ASCII range): tab, line
    feed, vertical tab, form feed, carriage return and the blank. *)
Definition is_space (c : ascii) : bool :=
  let n := nat_of_ascii c in
  ((9 <=? n) && (n <=? 13) || (n =? 32))%nat.

Fixpoint lstrip (s : string) : string :=
  match s with
  | EmptyString => EmptyString
  | String c r => if is_space c then lstrip r else s
  end.

Fixpoint rstrip (s : string) : string :=
  match s with
  | EmptyString => EmptyString
  | String c r =>
      match rstrip r with
      | EmptyString => if is_space c then EmptyString else String c EmptyString
      | r' => String c r'
      end
  end.

(** [int(s)] for a [str]: surrounding white space is dropped, one optional
    sign, then at least one decimal digit.  [None] stands for the
    [ValueError] Python raises.  Digit-group underscores need no case: every
    argument comes out of [split("_")].  Digits and spaces outside ASCII
    are left out. *)
Definition int (s : string) : option Z :=
  let t := rstrip (lstrip s) in
  let '(negative, ds) :=
    match t with
    | String "-" r => (true, r)
    | String "+" r => (false, r)
    | _ => (false, t)
    end in
  match ds with
  | EmptyString => None
  | _ =>
      match NilEmpty.uint_of_string ds with
      | Some u => Some (if negative then - Z.of_uint u else Z.of_uint u)
      | None => None
      end
  end.

(** [s.split(sep)] for a one-character separator: always at least one
    piece, empty pieces kept. *)
Fixpoint split (sep : ascii) (s : string) : list string :=
  match s with
  | EmptyString => [EmptyString]
  | String c r =>
      if Ascii.eqb c sep then EmptyString :: split sep r
      else match split sep r with
           | p :: ps => String c p :: ps
           | [] => [String c EmptyString]
           end
  end.

(** [x in l] on a list of strings. *)
Definition contains (x : string) (l : list string) : bool :=
  bool_decide (x ∈ l).

(** [l.remove(x)]: drops the first occurrence; [None] stands for the
    [ValueError] raised when [x] is absent. *)
Fixpoint remove (x : string) (l : list string) : option (list string) :=
  match l with
  | [] => None
  | y :: r => if String.eqb y x then Some r
              else match remove x r with
                   | Some r' => Some (y :: r')
                   | None => None
                   end
  end.

(** [s.endswith(suffixes)] with a tuple of suffixes. *)
Fixpoint has_suffix (suf s : string) : bool :=
  String.eqb suf s ||
  match s with
  | EmptyString => false
  | String _ r => has_suffix suf r
  end.

Definition endswith (sufs : list string) (s : string) : bool :=
  existsb (fun suf => has_suffix suf s) sufs.

(** [range(start, stop, step)] as the list it enumerates; [None] stands for
    the [ValueError] of a zero step. *)
Definition range (start stop step : Z) : option (list Z) :=
  if step =? 0 then None
  else
    let n := if 0 <? step
             then (stop - start + step - 1) / step
             else (start - stop - step - 1) / (- step) in
    Some (map (fun i => start + Z.of_nat i * step) (seq 0 (Z.to_nat n))).

(** [range(start, stop)]. *)
Definition range1 (start stop : Z) : list Z :=
  map (fun i => start + Z.of_nat i) (seq 0 (Z.to_nat (stop - start))).

(** [os.path.join(a, b)] for a relative [b] (POSIX separator). *)
Definition join (a b : string) : string := a +:+ "/" +:+ b.

(** [s.upper()] on ASCII letters. *)
Definition upper_char (c : ascii) : ascii :=
  let n := nat_of_ascii c in
  if ((97 <=? n) && (n <=? 122))%nat then ascii_of_nat (n - 32) else c.

Fixpoint upper (s : string) : string :=
  match s with
  | EmptyString => EmptyString
  | String c r => String (upper_char c) (upper r)
  end.

(** [s.startswith(p)]. *)
Fixpoint startswith (p s : string) : bool :=
  match p, s with
  | EmptyString, _ => true
  | String a p', String b s' => Ascii.eqb a b && startswith p' s'
  | String _ _, EmptyString => false
  end.

(** [p in s] for strings. *)
Fixpoint substring_of (p s : string) : bool :=
  startswith p s ||
  match s with
  | EmptyString => false
  | String _ r => substring_of p r
  end.

Fixpoint drop (n : nat) (s : string) : string :=
  match n, s with
  | S k, String _ r => drop k r
  | _, _ => s
  end.

Fixpoint take (n : nat) (s : string) : string :=
  match n, s with
  | S k, String c r => String c (take k r)
  | _, _ => EmptyString
  end.

(** [s[a:b]] for indices that are not negative. *)
Definition slice (a b : nat) (s : string) : string := take (b - a) (drop a s).

(** [s[-n:]]. *)
Definition last_chars (n : nat) (s : string) : string :=
  drop (String.length s - n) s.

(** [s.split(sep)] for a separator of any positive length: scanned from
    the left, matches do not overlap.  [skip] counts the characters of a
    separator that was just matched and is still to be passed over. *)
Fixpoint split_from (sep : string) (skip : nat) (s : string) : list string :=
  match s with
  | EmptyString => [EmptyString]
  | String c r =>
      match skip with
      | S k => split_from sep k r
      | O =>
          if startswith sep s
          then EmptyString :: split_from sep (String.length sep - 1) r
          else match split_from sep O r with
               | p :: ps => String c p :: ps
               | [] => [String c EmptyString]
               end
      end
  end.

Definition split_str (sep s : string) : list string := split_from sep O s.

(** [s.replace(old, new)] for a non-empty [old]. *)
Fixpoint replace_from (old new : string) (skip : nat) (s : string) : string :=
  match s with
  | EmptyString => EmptyString
  | String c r =>
      match skip with
      | S k => replace_from old new k r
      | O =>
          if startswith old s
          then new +:+ replace_from old new (String.length old - 1) r
          else String c (replace_from old new O r)
      end
  end.

Definition replace (old new s : string) : string := replace_from old new O s.

End Py.

(** ** Exceptions, outcomes and the state monad *)

(** The exceptions the scripts raise themselves, and the built-in ones that
    the modelled statements can raise. *)
Inductive exn : Type :=
  | ValueError (msg : string)
  | TypeError (msg : string)
  | UnboundLocalError (name : string)
  | IndexError (msg : string)
  | FunctionalityNotImplemented (msg : string)
  | MissingAerialCoverage (msg : string)
  | AreaOutOfBounds (msg : string).

Inductive outcome (A : Type) : Type :=
  | Ret (a : A)
  | Raise (e : exn).
Arguments Ret {A} a.
Arguments Raise {A} e.

(** A computation reads and writes a state [S]; when it raises, the state
    reached so far stays as it is (Python does not roll back). *)
Definition M (S A : Type) : Type := S -> S * outcome A.

Definition ret {S A} (a : A) : M S A := fun s => (s, Ret a).
Definition raise {S A} (e : exn) : M S A := fun s => (s, Raise e).
Definition bind {S A B} (m : M S A) (k : A -> M S B) : M S B :=
  fun s => match m s with
           | (s', Ret a) => k a s'
           | (s', Raise e) => (s', Raise e)
           end.
Definition get {S} : M S S := fun s => (s, Ret s).
Definition put {S} (s : S) : M S unit := fun _ => (s, Ret tt).
Definition modify {S} (f : S -> S) : M S unit := fun s => (f s, Ret tt).

#[global] Instance M_ret {S} : MRet (M S) := @ret S.
#[global] Instance M_bind {S} : MBind (M S) := fun A B k m => bind m k.

(** [for a in l: body(a)]; a [continue] is a body that returns early. *)
Fixpoint for_each {S A} (body : A -> M S unit) (l : list A) : M S unit :=
  match l with
  | [] => ret tt
  | a :: r => body a;; for_each body r
  end.

(** A loop that threads the lists it builds: [b] holds them before the
    round for [a], the result of [f b a] after it. *)
Fixpoint fold_m {S A B} (f : B -> A -> M S B) (l : list A) (b : B) : M S B :=
  match l with
  | [] => mret b
  | a :: r => b' ← f b a; fold_m f r b'
  end.

(** Runs a computation on one component of a larger state. *)
Definition zoom {S T A} (proj : S -> T) (upd : T -> S -> S) (m : M T A) : M S A :=
  fun s => match m (proj s) with (t, r) => (upd t s, r) end.

Definition final_state {S A} (r : S * outcome A) : S := fst r.
Definition result {S A} (r : S * outcome A) : outcome A := snd r.

(** ** Grid vintage selector *)

Definition url_2010_2013 : string :=
  "https://geoportal.geoportal-th.de/hoehendaten/Uebersichten/Stand_2010-2013.zip".
Definition url_2014_2019 : string :=
  "https://geoportal.geoportal-th.de/hoehendaten/Uebersichten/Stand_2014-2019.zip".
Definition url_2020_2025 : string :=
  "https://geoportal.geoportal-th.de/hoehendaten/Uebersichten/Stand_2020-2025.zip".

Definition unsupported_year_msg : string :=
  "The provided year is not yet supported with an URL. Current support ranges from 2010 to 2025.".

(** [dem_year_func(year)]: the grid archive URL and the vintage label.  It
    touches no state, so it is a plain function into [outcome]. *)
Definition dem_year_func (year : Z) : outcome (string * string) :=
  if (year <=? 2013) && (year >=? 2010) then Ret (url_2010_2013, "2010-2013")
  else if year <=? 2019 then Ret (url_2014_2019, "2014-2019")
  else if year <=? 2025 then Ret (url_2020_2025, "2020-2025")
  else Raise (ValueError unsupported_year_msg).

(** ** Tile-ID resolver: the grouping correction of [op_download] *)

(** The body of [for tile in tiles_check] (source lines 433-455), run on the
    live [tiles] list.  Returning [tt] before the removal is the [continue]
    of the both-even case. *)
Definition correct_tile (tile : string) : M (list string) unit :=
  match Py.split "_" tile with
  | [sx; sy] =>
      match Py.int sx, Py.int sy with
      | Some tile_x, Some tile_y =>
          let px := Z.land tile_x 1 in
          let py := Z.land tile_y 1 in
          (* [Some None]: neither inner branch assigned, the coordinates
             are still integers when line 453 concatenates them *)
          let renamed : option (option (string * string)) :=
            if px + py =? 1 then
              if px =? 1 then Some (Some (Py.str (tile_x - 1), Py.str tile_y))
              else if py =? 1 then Some (Some (Py.str tile_x, Py.str (tile_y - 1)))
              else Some None
            else if px + py =? 2 then
              Some (Some (Py.str (tile_x - 1), Py.str (tile_y - 1)))
            else None in
          match renamed with
          | None => mret tt
          | Some names =>
              tiles ← get;
              match Py.remove tile tiles with
              | None => raise (ValueError "list.remove(x): x not in list")
              | Some tiles' =>
                  put tiles';;
                  match names with
                  | None =>
                      raise (TypeError "unsupported operand type(s) for +: 'int' and 'str'")
                  | Some (new_x, new_y) =>
                      let new_tile := new_x +:+ "_" +:+ new_y in
                      if Py.contains new_tile tiles' then mret tt
                      else put (tiles' ++ [new_tile])%list
                  end
              end
          end
      | _, _ => raise (ValueError "invalid literal for int() with base 10")
      end
  | _ => raise (ValueError "not enough or too many values to unpack (expected 2)")
  end.

(** Lines 431-455: the loop runs over [tiles.copy()], a snapshot taken
    before the first change, while [tiles] itself is altered. *)
Definition group_correction : M (list string) unit :=
  tiles_check ← get;
  for_each correct_tile tiles_check.

(** ** Lookup table and ID matching *)

(** One row of the CSV lookup table with header [id,year,tilename]. *)
Record row : Type := Row { row_id : Z; row_year : Z; row_tilename : string }.

Definition missing_coverage_msg : string :=
  "There are no matching ortophoto tiles in this year.".

(** [lookup[lookup["year"] == year]]. *)
Definition filter_year (year : Z) (lookup : list row) : list row :=
  List.filter (fun r => row_year r =? year) lookup.

(** [lookup[lookup["tilename"] == tile]]. *)
Definition tile_match (lookup : list row) (tile : string) : list row :=
  List.filter (fun r => String.eqb (row_tilename r) tile) lookup.

(** Lines 458-464: [idlist] is a local list that is only returned when the
    loop ends normally. *)
Fixpoint match_ids (lookup : list row) (tiles : list string) (idlist : list Z)
  : outcome (list Z) :=
  match tiles with
  | [] => Ret idlist
  | tile :: rest =>
      match tile_match lookup tile with
      | [] => Raise (MissingAerialCoverage missing_coverage_msg)
      | r :: _ => match_ids lookup rest (idlist ++ [row_id r])%list
      end
  end.

(** ** The world outside the interpreter *)

(** What a run does to the outside, in program order. *)
Inductive event : Type :=
  | HttpGet (url : string)
  | HttpHead (url : string)
  | Extract (archive member dest : string)
  | WriteFile (path : string)
  | AppendLine (path line : string)
  | BuildVRT (vrt : string) (inputs : list string)
  | Translate (tif : string)
  | Warp (outp inp : string)
  | Warning (path : string).

(** [tiles_obj] is the list object that [intersection] returns and that
    [geoportalth_execute] hands to the download functions: callee and caller
    see the same object.  [files] are the regular files on disk; directories
    and their creation are left out, so [os.path.exists] on an archive path
    and [os.path.isfile] are the same test, [isfile]. *)
Record World : Type := MkWorld {
  tiles_obj : list string;
  files : gset string;
  trace : list event
}.

Definition set_tiles (t : list string) (w : World) : World :=
  MkWorld t (files w) (trace w).
Definition set_files (f : gset string) (w : World) : World :=
  MkWorld (tiles_obj w) f (trace w).
Definition emit (e : event) : M World unit :=
  modify (fun w => MkWorld (tiles_obj w) (files w) (trace w ++ [e])).
Definition create_file (path : string) : M World unit :=
  modify (fun w => set_files ({[path]} ∪ files w) w).
Definition isfile (path : string) : M World bool :=
  fun w => (w, Ret (bool_decide (path ∈ files w))).

(** What the run reads from outside and cannot change: geometry, the CSV
    lookup table, archive contents and the portal's answers. *)
Record Env : Type := MkEnv {
  (** the tile-name attribute of every piece of
      [gpd.overlay(polygon, grid, how="intersection")], for the AOI file and
      the grid file given: column [DGM_1X1] of the 2010-2013 grid, column
      [NAME] of the later ones *)
  overlay : string -> string -> list string;
  (** [pd.read_csv(id_file)] *)
  read_csv : string -> list row;
  (** [ZipFile(path).namelist()] *)
  namelist : string -> list string;
  (** the [Content-disposition] header of the answer to a HEAD request *)
  content_disposition : string -> option string
}.

Definition op_endpoint : string :=
  "https://geoportal.geoportal-th.de/gaialight-th/_apps/dladownload/download.php?type=op&id=".

(** [zip_ref.extract(member, dest)] for each member given: the member
    becomes a file below [dest]. *)
Definition extract_members (archive dest : string) (members : list string)
  : M World unit :=
  for_each (fun m => emit (Extract archive m dest);;
                     create_file (Py.join dest m)) members.

(** The arguments of [delete_residual_files]: a path or a list, nested to
    any depth. *)
#[local] Set Warnings "-register-all".
Inductive pyobj : Type :=
  | PStr (path : string)
  | PList (items : list pyobj).

Definition double_quote : string := String (ascii_of_nat 34) EmptyString.

Section Pipeline.
Context (env : Env).

(** ** Grid download and AOI intersection *)

Definition tile_grid_download (data_dir dem_year request : string)
  : M World unit :=
  let target_dir := Py.join data_dir ("Stand_" +:+ dem_year) in
  let grid_file := Py.join target_dir ("Stand_" +:+ dem_year +:+ ".zip") in
  present ← isfile grid_file;
  (if (present : bool) then mret tt
   else emit (HttpGet request);; emit (WriteFile grid_file);;
        create_file grid_file);;
  if String.eqb dem_year "2020-2025"
  then extract_members grid_file data_dir (List.tl (namelist env grid_file))
  else extract_members grid_file target_dir (namelist env grid_file).

Definition out_of_bounds_msg : string :=
  "Your area of interest seems to not lie within Thuringian state borders or adequate coverage is not available for chosen DEMs.".

Definition grid_path (data_dir dem_year : string) : outcome string :=
  if String.eqb dem_year "2010-2013" then
    Ret (Py.join (Py.join data_dir "Stand_2010-2013")
           "DGM2_2010-2013_Erfass-lt-Meta_UTM32-UTM_2014-12-10.shp")
  else if String.eqb dem_year "2014-2019" then
    Ret (Py.join (Py.join data_dir "Stand_2014-2019")
           "DGM1_2014-2019_Erfass-lt-Meta_UTM_2020-04-20--17127.shp")
  else if String.eqb dem_year "2020-2025" then
    Ret (Py.join (Py.join data_dir "Stand_2020-2025")
           "Laser_2020-2025_Erfass-lt-Meta_UTM_2022-08--17127.shp")
  else Raise (ValueError "The provided timeframe is not yet supported by this function.").

(** [intersection]: reads only, so it is a function into [outcome]; the
    caller binds the fresh list it returns. *)
Definition intersection (data_dir dem_year shapefile : string)
  : outcome (list string) :=
  match grid_path data_dir dem_year with
  | Raise e => Raise e
  | Ret grid =>
      let intersecting := overlay env shapefile grid in
      match intersecting with
      | [] => Raise (AreaOutOfBounds out_of_bounds_msg)
      | first :: _ =>
          if String.eqb dem_year "2010-2013"
          then let stop := String.length first in
               Ret (map (Py.slice 2 stop) intersecting)
          else Ret intersecting
      end
  end.

(** ** Download and unpack *)

(** The part both branches of the cache test share: unpack the archive
    into [dir] and collect the paths of its members. *)
Definition unzip_all (archive dir : string) : M World (list string) :=
  extract_members archive dir (namelist env archive);;
  mret (map (Py.join dir) (namelist env archive)).

Definition dem_request (dem_format dem_year indicator_number tile : string)
  : string :=
  "https://geoportal.geoportal-th.de/hoehendaten/" +:+ Py.upper dem_format
    +:+ "/" +:+ dem_format +:+ "_" +:+ dem_year +:+ "/" +:+ dem_format
    +:+ indicator_number +:+ tile +:+ "_1_th_" +:+ dem_year +:+ ".zip".

(** One round of [for tile in tiles] in [dem_download].  A name that no
    branch has bound is [None]; using it raises. *)
Definition dem_download_tile (dem_dir dem_format dem_year : string)
    (acc : list string * list string) (tile : string)
  : M World (list string * list string) :=
  let '(dem_zip_list, dem_unzip_list) := acc in
  let indicator_number : option string :=
    if String.eqb dem_year "2010-2013" then Some "2_"
    else if String.eqb dem_year "2014-2019" || String.eqb dem_year "2020-2025"
    then Some "1_" else None in
  request ←
    (if String.eqb dem_format "dgm" || String.eqb dem_format "dom" then
       match indicator_number with
       | Some i => mret (Some (dem_request dem_format dem_year i tile))
       | None => raise (UnboundLocalError "indicator_number")
       end
     else mret None);
  let current_dem :=
    Py.join dem_dir (tile +:+ "_" +:+ dem_format +:+ dem_year +:+ ".zip") in
  let dem_zip_list := (dem_zip_list ++ [current_dem])%list in
  present ← isfile current_dem;
  if (present : bool) then
    unzipped ← unzip_all current_dem dem_dir;
    mret (dem_zip_list, (dem_unzip_list ++ unzipped)%list)
  else
    match request with
    | None => raise (UnboundLocalError "request")
    | Some url =>
        emit (HttpGet url);; emit (WriteFile current_dem);;
        create_file current_dem;;
        unzipped ← unzip_all current_dem dem_dir;
        mret (dem_zip_list, (dem_unzip_list ++ unzipped)%list)
    end.

Definition dem_download (dem_dir : string) (tiles : list string)
    (dem_format dem_year : string) : M World (list string * list string) :=
  fold_m (dem_download_tile dem_dir dem_format dem_year) tiles ([], []).

(** One round of [for tile_id in idlist] in [op_download]. *)
Definition op_download_id (op_dir : string)
    (acc : list string * list string) (tile_id : Z)
  : M World (list string * list string) :=
  let '(op_zip_list, op_unzip_list) := acc in
  let current_op := Py.join op_dir (Py.str tile_id +:+ ".zip") in
  let op_zip_list := (op_zip_list ++ [current_op])%list in
  present ← isfile current_op;
  if (present : bool) then
    unzipped ← unzip_all current_op op_dir;
    mret (op_zip_list, (op_unzip_list ++ unzipped)%list)
  else
    emit (HttpGet (op_endpoint +:+ Py.str tile_id));;
    emit (WriteFile current_op);;
    create_file current_op;;
    unzipped ← unzip_all current_op op_dir;
    mret (op_zip_list, (op_unzip_list ++ unzipped)%list).

(** Lines 415-464 of [op_download]: the ID list for the caller's tile
    list.  The correction works on the caller's list object. *)
Definition op_resolve_ids (year : Z) (id_file : string) : M World (list Z) :=
  let lookup := filter_year year (read_csv env id_file) in
  (if year <=? 2018 then zoom tiles_obj set_tiles group_correction
   else mret tt);;
  tiles ← zoom tiles_obj set_tiles get;
  match match_ids lookup tiles [] with
  | Ret idlist => mret idlist
  | Raise e => raise e
  end.

(** [op_download(op_dir, tiles, year, id_file)], with [tiles] the list
    object held in [tiles_obj]. *)
Definition op_download (op_dir : string) (year : Z) (id_file : string)
  : M World (list string * list string) :=
  idlist ← op_resolve_ids year id_file;
  fold_m (op_download_id op_dir) idlist ([], []).

(** ** Mosaic and clip *)

Definition default_epsg : string := "EPSG: 25832".

(** [merging_tiles].  The raster library is outside the model: its calls
    are events, and the two files they leave behind are created. *)
Definition merging_tiles (tiles_list : list string) (tiles_dir out_name epsg : string)
    (meta_files : option (list string)) : M World (list string) :=
  if negb (String.eqb epsg default_epsg) then
    raise (FunctionalityNotImplemented "Changing output's EPSG not yet possible!")
  else
    let meta_files := match meta_files with
                      | None => ["tfw"; "meta"]
                      | Some m => m
                      end in
    let tiles_list :=
      List.filter (fun file => negb (Py.endswith meta_files file)) tiles_list in
    match tiles_list with
    | [] => raise (IndexError "list index out of range")
    | _ :: _ =>
        let vrt := Py.join tiles_dir (out_name +:+ ".vrt") in
        let tif := Py.join tiles_dir (out_name +:+ ".tif") in
        emit (BuildVRT vrt tiles_list);; create_file vrt;;
        emit (Translate tif);; create_file tif;;
        mret (map (fun e => Py.join tiles_dir (out_name +:+ e)) [".vrt"; ".tif"])
    end.

Definition clip_rasters (inp outp : string) : M World unit :=
  emit (Warp outp inp);; create_file outp.

(** ** Cleanup *)

(** [determine_files_to_delete]; [keep_files] is [None] for Python's
    [None].  The membership test on line 612 comes first and needs an
    iterable. *)
Definition determine_files_to_delete (zip_list unzip_list intermediates : list string)
    (keep_files : option (list string)) : outcome (list (list string)) :=
  match keep_files with
  | None => Raise (TypeError "argument of type 'NoneType' is not iterable")
  | Some keep =>
      if Py.contains "all" keep then Ret []
      else
        (* line 616, [if keep_files is None], is never true here *)
        Ret ((if negb (Py.contains "zip" keep) then [zip_list] else []) ++
             (if negb (Py.contains "unzipped" keep) then [unzip_list] else []) ++
             (if negb (Py.contains "intermediate" keep) then [intermediates] else []))%list
  end.

(** [delete_residual_files(o)], the call with one argument. *)
Fixpoint delete_one (o : pyobj) : M World unit :=
  match o with
  | PStr path =>
      present ← isfile path;
      if (present : bool)
      then modify (fun w => set_files (files w ∖ {[path]}) w)
      else emit (Warning path)
  | PList items => for_each delete_one items
  end.

(** [delete_residual_files] with the tuple of its arguments. *)
Definition delete_residual_files (lists : list pyobj) : M World unit :=
  match lists with
  | [] => raise (IndexError "tuple index out of range")
  | [o] => delete_one o
  | _ :: _ :: _ => for_each delete_one lists
  end.

Definition paths_obj (lists : list (list string)) : pyobj :=
  PList (map (fun l => PList (map PStr l)) lists).

(** Lines 118-122 and 140-144: what [geoportalth_execute] does with the
    three lists at the end of a branch. *)
Definition cleanup (zip_list unzip_list intermediates : list string)
    (keep_files : option (list string)) : M World unit :=
  match determine_files_to_delete zip_list unzip_list intermediates keep_files with
  | Raise e => raise e
  | Ret delete_list => delete_residual_files [paths_obj delete_list]
  end.

(** ** The entry point *)

Definition geoportalth_execute (root shapefile data_choice : string) (year : Z)
    (id_file dem_format : string) (data_dir dem_dir op_dir : option string)
    (keep_files : option (list string)) (out_name epsg : string)
  : M World unit :=
  if negb (String.eqb epsg default_epsg) then
    raise (FunctionalityNotImplemented "Changing output's EPSG not yet possible.")
  else if String.eqb dem_format "las" then
    raise (FunctionalityNotImplemented "Las files not yet supported.")
  else
    let data_dir := default (Py.join root "data") data_dir in
    let dem_dir := default (Py.join data_dir "dem") dem_dir in
    let op_dir := default (Py.join data_dir "op") op_dir in
    match dem_year_func year with
    | Raise e => raise e
    | Ret (request, dem_year) =>
        tile_grid_download data_dir dem_year request;;
        match intersection data_dir dem_year shapefile with
        | Raise e => raise e
        | Ret tiles =>
            modify (set_tiles tiles);;
            if String.eqb data_choice "dem" || String.eqb data_choice "both" then
              '(dem_zip_list, dem_unzip_list) ←
                dem_download dem_dir tiles dem_format dem_year;
              dem_intermediates ←
                merging_tiles dem_unzip_list dem_dir out_name epsg None;
              clip_rasters (Py.join dem_dir (out_name +:+ ".tif"))
                (Py.join dem_dir (out_name +:+ "_" +:+ dem_format +:+ "_clip.tif"));;
              cleanup dem_zip_list dem_unzip_list dem_intermediates keep_files
            else if String.eqb data_choice "op" || String.eqb data_choice "both" then
              '(op_zip_list, op_unzip_list) ← op_download op_dir year id_file;
              op_intermediates ←
                merging_tiles op_unzip_list op_dir out_name epsg None;
              clip_rasters (Py.join op_dir (out_name +:+ ".tif"))
                (Py.join op_dir (out_name +:+ "OP_clip.tif"));;
              cleanup op_zip_list op_unzip_list op_intermediates keep_files
            else mret tt
        end
    end.

(** ** The offline ID-table builder ([op_tile_finder.py]) *)

(** [op_tilename_finder(request, index)]: [Ret None] is the bare
    [return]. *)
Definition op_tilename_finder (request : string) (index : Z)
  : M World (option (Z * string)) :=
  emit (HttpHead request);;
  match content_disposition env request with
  | None => mret None
  | Some text =>
      match Py.split "=" text with
      | _ :: second :: _ =>
          let filename := Py.replace double_quote "" second in
          if Py.substring_of "dop" filename then mret (Some (index, filename))
          else mret None
      | _ => raise (IndexError "list index out of range")
      end
  end.

(** Lines 135-145: the line written for one entry of a batch. *)
Definition save_entry (id_file : string) (entry : option (Z * string))
  : M World unit :=
  match entry with
  | None => mret tt
  | Some (index, name) =>
      let year := Py.replace ".zip" "" (Py.last_chars 8 name) in
      match Py.split_str "_32" name with
      | _ :: subentry :: _ =>
          let '(idx_a, idx_b) :=
            if Py.startswith "_" subentry then (1, 9)%nat else (0, 8)%nat in
          let tilename := Py.slice idx_a idx_b subentry in
          emit (AppendLine id_file
                  (Py.str index +:+ "," +:+ year +:+ "," +:+ tilename))
      | _ => raise (IndexError "list index out of range")
      end
  end.

(** The IDs of one batch, [range(current, current + safe_step)]. *)
Definition batch_ids (current safe_step : Z) : list Z :=
  Py.range1 current (current + safe_step).

(** One delayed call of the pool; its result joins those of the calls
    before it. *)
Definition request_index (acc : list (option (Z * string))) (index : Z)
  : M World (list (option (Z * string))) :=
  entry ← op_tilename_finder (op_endpoint +:+ Py.str index) index;
  mret (acc ++ [entry])%list.

(** One round of [for current in range(start, end+1, safe_step)]: the
    whole batch is requested, then its results are written.  The pool
    returns the results in the order of the indices. *)
Definition run_batch (id_file : string) (safe_step current : Z) : M World unit :=
  names_list ← fold_m request_index (batch_ids current safe_step) [];
  for_each (save_entry id_file) names_list.

Definition op_tilelist_creator (root id_file : string) (n_jobs start stop safe_step : Z)
  : M World unit :=
  let id_file := Py.join root id_file in
  present ← isfile id_file;
  (if (present : bool) then mret tt
   else emit (WriteFile id_file);; create_file id_file);;
  match Py.range start (stop + 1) safe_step with
  | None => raise (ValueError "range() arg 3 must not be zero")
  | Some currents => for_each (run_batch id_file safe_step) currents
  end.

End Pipeline.

(** ** Definitions used to state the properties *)

Fixpoint all_chars (p : ascii -> bool) (s : string) : bool :=
  match s with
  | EmptyString => true
  | String c r => p c && all_chars p r
  end.

Definition is_digit (c : ascii) : bool :=
  let n := nat_of_ascii c in ((48 <=? n) && (n <=? 57))%nat.

Definition numeral_char (c : ascii) : bool :=
  is_digit c || Ascii.eqb c "-".

(** The name the portal gives the cell with lower-left corner [(x, y)]. *)
Definition tile_name (x y : Z) : string := Py.str x +:+ "_" +:+ Py.str y.

(** What lines 433-434 make of a name: two integers, or an exception. *)
Definition parse_tile (tile : string) : option (Z * Z) :=
  match Py.split "_" tile with
  | [sx; sy] =>
      match Py.int sx, Py.int sy with
      | Some x, Some y => Some (x, y)
      | _, _ => None
      end
  | _ => None
  end.

(** The correction in the words of the specification: the odd coordinates,
    and only those, go down by one. *)
Definition spec_anchor (x y : Z) : Z * Z :=
  match Z.odd x, Z.odd y with
  | true, false => (x - 1, y)
  | false, true => (x, y - 1)
  | true, true => (x - 1, y - 1)
  | false, false => (x, y)
  end.

(** A name needs the correction when a coordinate is odd. *)
Definition needs_fix (tile : string) : bool :=
  match parse_tile tile with
  | Some (x, y) => Z.odd x || Z.odd y
  | None => false
  end.

(** The name that stands for [tile] after the correction: names with two
    even coordinates are kept as they are written. *)
Definition spec_rename (tile : string) : string :=
  match parse_tile tile with
  | Some (x, y) =>
      if Z.odd x || Z.odd y
      then let '(ax, ay) := spec_anchor x y in tile_name ax ay
      else tile
  | None => tile
  end.

(** A name that lines 433-434 accept. *)
Definition well_formed (tile : string) : Prop := is_Some (parse_tile tile).

(** A small environment and world to run the model on: no overlay piece, a
    lookup table of three rows, archives of two members, a portal that sends
    no disposition header. *)
Definition demo_env : Env :=
  MkEnv (fun _ _ => [])
        (fun _ => [Row 7 2015 "0_0"; Row 8 2015 "0_0"; Row 9 2020 "1_1"])
        (fun _ => ["a.tif"; "a.meta"])
        (fun _ => None).

Definition demo_world (tiles : list string) : World := MkWorld tiles ∅ [].

(** The table of vintages in the words of the specification: first year,
    last year, grid archive, label. *)
Definition vintage_table : list (Z * Z * string * string) :=
  [ (2010, 2013, url_2010_2013, "2010-2013");
    (2014, 2019, url_2014_2019, "2014-2019");
    (2020, 2025, url_2020_2025, "2020-2025") ].

(** A name on which the grouping correction has nothing left to do. *)
Definition settled (tile : string) : Prop :=
  well_formed tile /\ needs_fix tile = false.

(** The first row of a table whose tile name is [tile]. *)
Definition first_row (lookup : list row) (tile : string) : option row :=
  List.find (fun r => String.eqb (row_tilename r) tile) lookup.

(** Whether an exception message mentions the tile or the year. *)
Definition mentions (msg tile : string) (year : Z) : bool :=
  Py.substring_of tile msg || Py.substring_of (Py.str year) msg.

(** The archive path [op_download] uses for an ID. *)
Definition op_archive (op_dir : string) (tile_id : Z) : string :=
  Py.join op_dir (Py.str tile_id +:+ ".zip").

(** An environment in which the AOI lies on one tile, 0_0. *)
Definition demo_env_covered : Env :=
  MkEnv (fun _ _ => ["0_0"])
        (fun _ => [Row 7 2015 "0_0"; Row 8 2015 "0_0"; Row 9 2020 "1_1"])
        (fun _ => ["a.tif"; "a.meta"])
        (fun _ => None).

(** The events of a trace that fetch from the portal or write a fetched
    archive. *)
Definition is_download (e : event) : bool :=
  match e with
  | HttpGet _ | WriteFile _ => true
  | _ => false
  end.

Definition downloads (tr : list event) : list event := List.filter is_download tr.

(** The URLs of the orthophoto endpoint that a trace fetches. *)
Definition op_fetches (tr : list event) : list string :=
  flat_map (fun e => match e with
                     | HttpGet url => if Py.startswith op_endpoint url then [url] else []
                     | _ => []
                     end) tr.

(** The grid archive of a vintage below a data directory. *)
Definition grid_archive (data_dir dem_year : string) : string :=
  Py.join (Py.join data_dir ("Stand_" +:+ dem_year)) ("Stand_" +:+ dem_year +:+ ".zip").

(** The URLs a trace asks the headers of. *)
Definition head_requests (tr : list event) : list string :=
  flat_map (fun e => match e with HttpHead url => [url] | _ => [] end) tr.

(** A file name the ID-table builder can take apart: it holds the marker
    "_32" that precedes the tile name. *)
Definition entry_ok (entry : option (Z * string)) : bool :=
  match entry with
  | None => true
  | Some (_, name) =>
      match Py.split_str "_32" name with
      | _ :: _ :: _ => true
      | _ => false
      end
  end.

(** An answer of the portal that makes neither [op_tilename_finder] nor the
    writing of its entry raise: no disposition header, or one with a value
    after "=", that is no orthophoto name or holds the marker. *)
Definition answer_ok (header : option string) : bool :=
  match header with
  | None => true
  | Some text =>
      match Py.split "=" text with
      | _ :: second :: _ =>
          let filename := Py.replace double_quote "" second in
          negb (Py.substring_of "dop" filename) || entry_ok (Some (0, filename))
      | _ => false
      end
  end.

(** The request the builder sends for an ID. *)
Definition head_url (index : Z) : string := op_endpoint +:+ Py.str index.

(** All IDs requested, batch after batch. *)
Definition requested_ids (currents : list Z) (safe_step : Z) : list Z :=
  concat (map (fun current => batch_ids current safe_step) currents).

(** The archive path [dem_download] uses for a tile. *)
Definition dem_archive (dem_dir dem_format dem_year tile : string) : string :=
  Py.join dem_dir (tile +:+ "_" +:+ dem_format +:+ dem_year +:+ ".zip").

(** The request [dem_download] sends for a tile of a supported vintage. *)
Definition dem_url (dem_format dem_year tile : string) : string :=
  dem_request dem_format dem_year
    (if String.eqb dem_year "2010-2013" then "2_" else "1_") tile.

(** The formats and vintages for which [dem_download] binds every name it
    uses. *)
Definition dem_supported (dem_format dem_year : string) : Prop :=
  (dem_format = "dgm" \/ dem_format = "dom") /\
  (dem_year = "2010-2013" \/ dem_year = "2014-2019" \/ dem_year = "2020-2025").

(** The paths collected for the members of an archive unpacked into [dir]. *)
Definition member_paths (env : Env) (dir archive : string) : list string :=
  map (Py.join dir) (namelist env archive).
(** The member paths of the archives of a list of tiles, archive after
    archive. *)
Definition dem_member_paths (env : Env) (dem_dir dem_format dem_year : string)
    (tiles : list string) : list string :=
  concat (map (fun tile =>
                 member_paths env dem_dir (dem_archive dem_dir dem_format dem_year tile))
              tiles).



(** Each pair of year and tile name has at most one ID in the table. *)
Definition key_unique (lookup : list row) : Prop :=
  forall r1 r2, r1 ∈ lookup -> r2 ∈ lookup ->
    row_year r1 = row_year r2 -> row_tilename r1 = row_tilename r2 ->
    row_id r1 = row_id r2.

(** The paths an argument of [delete_residual_files] holds, in the order in
    which the recursion meets them. *)
Fixpoint paths_of (o : pyobj) : list string :=
  match o with
  | PStr path => [path]
  | PList items => concat (map paths_of items)
  end.

(** Whether the cleanup deletes a path, for a [keep_files] list: the path is
    in a list whose keyword is absent, and "all" is absent. *)
Definition marked_for_deletion (zip_list unzip_list intermediates keep : list string)
    (p : string) : Prop :=
  ("all" ∉ keep) /\
  ((("zip" ∉ keep) /\ p ∈ zip_list) \/
   (("unzipped" ∉ keep) /\ p ∈ unzip_list) \/
   (("intermediate" ∉ keep) /\ p ∈ intermediates)).


(** The three values of [data_choice] that the entry point acts on. *)
Definition known_choice (data_choice : string) : bool :=
  String.eqb data_choice "dem" || String.eqb data_choice "op"
  || String.eqb data_choice "both".


(** The world after the first lines of [op_tilelist_creator] (117-125): the
    ID file exists, written with its header if it was missing. *)
Definition with_id_file (path : string) (w : World) : World :=
  if bool_decide (path ∈ files w) then w
  else MkWorld (tiles_obj w) ({[path]} ∪ files w) (trace w ++ [WriteFile path]).

(** [s.rstrip("/")]. *)
Fixpoint rstrip_slash (s : string) : string :=
  match s with
  | EmptyString => EmptyString
  | String c r =>
      match rstrip_slash r with
      | EmptyString => if Ascii.eqb c "/" then EmptyString else String c EmptyString
      | r' => String c r'
      end
  end.

(** [os.path.basename(p)] (POSIX): what follows the last separator. *)
Definition path_basename (p : string) : string := List.last (Py.split "/" p) "".

(** [os.path.dirname(p)] (POSIX): what precedes the base name, without its
    trailing separators unless it consists of separators only. *)
Definition path_dirname (p : string) : string :=
  let head := Py.take (String.length p - String.length (path_basename p)) p in
  if negb (String.eqb head "") && negb (all_chars (Ascii.eqb "/") head)
  then rstrip_slash head else head.




(** [DEM_Year(year)], lines 94-105 of the first version of the script,
    [GeoportalTH_Imagery_Download/GeoportalTH_main.py]. *)
Definition DEM_Year (year : Z) : outcome (string * string) :=
  if year <=? 2013 then Ret (url_2010_2013, "2010-2013")
  else if year <=? 2019 then Ret (url_2014_2019, "2014-2019")
  else if year <=? 2025 then Ret (url_2020_2025, "2020-2025")
  else Raise (ValueError "The provided year is not yet supported with an URL").

(** Lines 302-305 of [OP_download] in the first version: the first row is
    taken without a test, so an empty match fails at the index. *)
Fixpoint legacy_match_ids (lookup : list row) (tiles : list string) (idlist : list Z)
  : outcome (list Z) :=
  match tiles with
  | [] => Ret idlist
  | tile :: rest =>
      match tile_match lookup tile with
      | [] => Raise (IndexError "index 0 is out of bounds for axis 0 with size 0")
      | r :: _ => legacy_match_ids lookup rest (idlist ++ [row_id r])%list
      end
  end.

(** The world after one line has been appended to the ID file. *)
Definition with_line (id_file line : string) (w : World) : World :=
  MkWorld (tiles_obj w) (files w) (trace w ++ [AppendLine id_file line]).

(** * Properties *)

#[local] Set Warnings "-clear-no-such-hyp".

(** ** The built-ins on sample inputs *)

Example str_negative : Py.str (-12) = "-12".
Proof. reflexivity. Qed.

Example int_padded : Py.int " +007 " = Some 7.
Proof. reflexivity. Qed.

Example int_rejects_inner_space : Py.int "- 7" = None.
Proof. reflexivity. Qed.

Example split_keeps_empty : Py.split "_" "1_2_" = ["1"; "2"; ""].
Proof. reflexivity. Qed.

Example range_with_step : Py.range 3 11 4 = Some [3; 7].
Proof. reflexivity. Qed.

Example range_downwards : Py.range 5 0 (-2) = Some [5; 3; 1].
Proof. reflexivity. Qed.

Example split_adjacent : Py.split_str "_32" "a_32_32b" = ["a"; ""; "b"].
Proof. reflexivity. Qed.

Example replace_leftmost : Py.replace "aa" "b" "aaa" = "ba".
Proof. reflexivity. Qed.

Example slice_grid_name : Py.slice 2 12 "DGM2_123_456" = "M2_123_456".
Proof. reflexivity. Qed.

Example split_marker :
  Py.split_str "_32" "dop20rgb_32_640_5630_2_th_2015.zip"
  = ["dop20rgb"; "_640_5630_2_th_2015.zip"].
Proof. reflexivity. Qed.

Example save_entry_line :
  trace (final_state (save_entry "ids"
           (Some (7, "dop20rgb_32_640_5630_2_th_2015.zip")) (demo_world [])))
  = [AppendLine "ids" "7,2015,640_5630"].
Proof. reflexivity. Qed.

(** ** Decimal numerals and tile names *)

Lemma uint_digits (d : Decimal.uint) :
  all_chars is_digit (NilEmpty.string_of_uint d) = true.
Proof. induction d; simpl; auto. Qed.

Lemma all_chars_weaken (p q : ascii -> bool) (s : string) :
  (forall c, p c = true -> q c = true) ->
  all_chars p s = true -> all_chars q s = true.
Proof.
  intros Hpq. induction s as [|c r IH]; simpl; [done|].
  intros [Hc Hr]%andb_prop. rewrite (Hpq _ Hc). simpl. auto.
Qed.

Lemma str_numeral (n : Z) : all_chars numeral_char (Py.str n) = true.
Proof.
  assert (Hd : forall d, all_chars numeral_char (NilEmpty.string_of_uint d) = true).
  { intros d. apply all_chars_weaken with (p := is_digit); [|apply uint_digits].
    intros c Hc. unfold numeral_char. by rewrite Hc. }
  unfold Py.str. destruct n; simpl; auto.
Qed.

Lemma numeral_not_space (c : ascii) : numeral_char c = true -> Py.is_space c = false.
Proof.
  destruct c as [[|] [|] [|] [|] [|] [|] [|] [|]]; vm_compute; congruence.
Qed.

Lemma lstrip_numeral (s : string) :
  all_chars numeral_char s = true -> Py.lstrip s = s.
Proof.
  destruct s as [|c r]; simpl; [done|].
  intros [Hc _]%andb_prop. by rewrite (numeral_not_space _ Hc).
Qed.

Lemma rstrip_numeral (s : string) :
  all_chars numeral_char s = true -> Py.rstrip s = s.
Proof.
  induction s as [|c r IH]; simpl; [done|].
  intros [Hc Hr]%andb_prop. rewrite (IH Hr), (numeral_not_space _ Hc).
  by destruct r.
Qed.

(** [int(str(n))] gives [n] back. *)
Lemma int_str (n : Z) : Py.int (Py.str n) = Some n.
Proof.
  unfold Py.int.
  rewrite (lstrip_numeral _ (str_numeral n)), (rstrip_numeral _ (str_numeral n)).
  unfold Py.str. destruct n as [|p|p]; simpl; [done| |].
  - pose proof (DecimalPos.Unsigned.of_to p) as Hp.
    pose proof (DecimalPos.Unsigned.to_uint_nonnil p) as Hnil.
    pose proof (NilEmpty.usu (Pos.to_uint p)) as Hu.
    destruct (Pos.to_uint p) eqn:E; [done|..]; simpl in Hu |- *;
      rewrite Hu; unfold Z.of_uint; rewrite Hp; done.
  - pose proof (DecimalPos.Unsigned.of_to p) as Hp.
    pose proof (DecimalPos.Unsigned.to_uint_nonnil p) as Hnil.
    pose proof (NilEmpty.usu (Pos.to_uint p)) as Hu.
    destruct (Pos.to_uint p) eqn:E; [done|..]; simpl in Hu |- *;
      rewrite Hu; unfold Z.of_uint; rewrite Hp; done.
Qed.

Lemma numeral_not_underscore (c : ascii) :
  numeral_char c = true -> Ascii.eqb c "_" = false.
Proof.
  destruct c as [[|] [|] [|] [|] [|] [|] [|] [|]]; vm_compute; congruence.
Qed.

Lemma split_numeral (s : string) :
  all_chars numeral_char s = true -> Py.split "_" s = [s].
Proof.
  induction s as [|c r IH]; simpl; [done|].
  intros [Hc Hr]%andb_prop.
  by rewrite (numeral_not_underscore _ Hc), (IH Hr).
Qed.

Lemma append_empty_l (s : string) : "" +:+ s = s.
Proof. reflexivity. Qed.

Lemma append_String (c : ascii) (r s : string) :
  String c r +:+ s = String c (r +:+ s).
Proof. reflexivity. Qed.

Lemma split_two (a b : string) :
  all_chars numeral_char a = true -> all_chars numeral_char b = true ->
  Py.split "_" (a +:+ "_" +:+ b) = [a; b].
Proof.
  intros Ha Hb. induction a as [|c r IH].
  - rewrite append_empty_l, append_String. simpl.
    by rewrite append_empty_l, (split_numeral _ Hb).
  - apply andb_prop in Ha as [Hc Hr]. rewrite append_String. simpl.
    by rewrite (numeral_not_underscore _ Hc), (IH Hr).
Qed.

Lemma parse_tile_name (x y : Z) : parse_tile (tile_name x y) = Some (x, y).
Proof.
  unfold parse_tile, tile_name.
  rewrite (split_two _ _ (str_numeral x) (str_numeral y)).
  by rewrite !int_str.
Qed.

Lemma land_one (x : Z) : Z.land x 1 = if Z.odd x then 1 else 0.
Proof.
  change 1 with (Z.ones 1) at 1. rewrite Z.land_ones by lia.
  change (2 ^ 1) with 2. apply Zmod_odd.
Qed.

(** ** The grouping correction, one tile at a time *)

Lemma correct_tile_even (tile : string) (x y : Z) (live : list string) :
  parse_tile tile = Some (x, y) -> Z.odd x = false -> Z.odd y = false ->
  correct_tile tile live = (live, Ret tt).
Proof.
  unfold parse_tile, correct_tile. intros Hp Hx Hy.
  destruct (Py.split "_" tile) as [|sx [|sy [|? ?]]]; try done.
  destruct (Py.int sx) as [x'|]; [|done].
  destruct (Py.int sy) as [y'|]; [|done].
  injection Hp as -> ->. cbv zeta. rewrite !land_one, Hx, Hy. reflexivity.
Qed.

Lemma correct_tile_odd (tile : string) (x y : Z) (live : list string) :
  parse_tile tile = Some (x, y) -> Z.odd x || Z.odd y = true ->
  correct_tile tile live =
    match Py.remove tile live with
    | None => (live, Raise (ValueError "list.remove(x): x not in list"))
    | Some live' =>
        if Py.contains (spec_rename tile) live' then (live', Ret tt)
        else ((live' ++ [spec_rename tile])%list, Ret tt)
    end.
Proof.
  unfold spec_rename, parse_tile, correct_tile. intros Hp Hodd.
  destruct (Py.split "_" tile) as [|sx [|sy [|? ?]]]; try done.
  destruct (Py.int sx) as [x'|]; [|done].
  destruct (Py.int sy) as [y'|]; [|done].
  injection Hp as -> ->. cbv zeta. rewrite !land_one, Hodd. unfold spec_anchor.
  destruct (Z.odd x), (Z.odd y); try done; simpl;
    unfold mbind, M_bind, bind, get, put, mret, M_ret, ret; simpl;
    destruct (Py.remove tile live) as [live'|]; try done;
    unfold tile_name; destruct (Py.contains _ live'); done.
Qed.

(** ** [list.remove] and [in] *)

Lemma contains_spec (x : string) (l : list string) :
  Py.contains x l = true <-> x ∈ l.
Proof. unfold Py.contains. by rewrite bool_decide_eq_true. Qed.

Lemma remove_perm (x : string) (l l' : list string) :
  Py.remove x l = Some l' -> l ≡ₚ x :: l'.
Proof.
  revert l'. induction l as [|y r IH]; simpl; intros l' H; [done|].
  destruct (String.eqb_spec y x) as [->|Hne].
  - by injection H as <-.
  - destruct (Py.remove x r) as [r'|]; [|done]. injection H as <-.
    rewrite (IH r' eq_refl). apply perm_swap.
Qed.

Lemma remove_present (x : string) (l : list string) :
  x ∈ l -> is_Some (Py.remove x l).
Proof.
  induction l as [|y r IH]; simpl; intros H; [by apply elem_of_nil in H|].
  destruct (String.eqb_spec y x) as [->|Hne]; [by eexists|].
  apply elem_of_cons in H as [->|H]; [done|].
  destruct (IH H) as [r' ->]. by eexists.
Qed.

(** ** Running the monad *)

Ltac run_monad :=
  unfold mbind, M_bind, bind, mret, M_ret, ret, raise, get, put, modify,
    emit, create_file, isfile, zoom, final_state, result in *; simpl in *.

Lemma mbind_run {S A B} (m : M S A) (k : A -> M S B) (s : S) :
  (m ≫= k) s =
    match m s with
    | (s', Ret a) => k a s'
    | (s', Raise e) => (s', Raise e)
    end.
Proof. reflexivity. Qed.

Lemma mret_run {S A} (a : A) (s : S) : (mret a : M S A) s = (s, Ret a).
Proof. reflexivity. Qed.

Lemma for_each_cons {S A} (body : A -> M S unit) (a : A) (r : list A) (s : S) :
  for_each body (a :: r) s =
    match body a s with
    | (s', Ret _) => for_each body r s'
    | (s', Raise e) => (s', Raise e)
    end.
Proof. reflexivity. Qed.

Lemma fold_m_cons {S A B} (f : B -> A -> M S B) (a : A) (r : list A) (b : B) (s : S) :
  fold_m f (a :: r) b s =
    match f b a s with
    | (s', Ret b') => fold_m f r b' s'
    | (s', Raise e) => (s', Raise e)
    end.
Proof. reflexivity. Qed.

(** ** What a loop keeps *)

Lemma for_each_keeps {S A} (P : S -> Prop) (body : A -> M S unit) (l : list A) :
  (forall a s, P s -> P (final_state (body a s))) ->
  forall s, P s -> P (final_state (for_each body l s)).
Proof.
  intros Hbody. induction l as [|a r IH]; intros s Hs; [done|].
  simpl. unfold mbind, M_bind, bind. specialize (Hbody a s Hs).
  destruct (body a s) as [s' [[]|e]]; simpl in *; auto.
Qed.

Lemma fold_m_keeps {S A B} (P : S -> Prop) (f : B -> A -> M S B) (l : list A) :
  (forall b a s, P s -> P (final_state (f b a s))) ->
  forall b s, P s -> P (final_state (fold_m f l b s)).
Proof.
  intros Hf. induction l as [|a r IH]; intros b s Hs; [done|].
  simpl. unfold mbind, M_bind, bind. specialize (Hf b a s Hs).
  destruct (f b a s) as [s' [b'|e]]; simpl in *; auto.
Qed.

(** One round of the correction keeps the list free of duplicates and
    never makes it longer, whatever the round ends with. *)
Lemma correct_tile_NoDup (tile : string) (live : list string) :
  NoDup live -> NoDup (final_state (correct_tile tile live)).
Proof.
  intros Hnd. unfold correct_tile.
  destruct (Py.split "_" tile) as [|sx [|sy [|? ?]]]; try done.
  destruct (Py.int sx) as [x|]; [|done].
  destruct (Py.int sy) as [y|]; [|done].
  cbv zeta.
  match goal with |- context [match ?r with Some _ => _ | None => mret tt end] =>
    destruct r as [names|] end; [|done].
  unfold mbind, M_bind, bind, get, put, mret, M_ret, ret, raise; simpl.
  destruct (Py.remove tile live) as [live'|] eqn:Hrm; [|done].
  apply remove_perm in Hrm. rewrite Hrm in Hnd. apply NoDup_cons in Hnd as [_ Hnd].
  destruct names as [[new_x new_y]|]; [|done].
  destruct (Py.contains _ live') eqn:Hin; simpl; [done|].
  apply NoDup_app. split_and!; [done| |apply NoDup_singleton].
  intros u Hu ->%list_elem_of_singleton.
  apply contains_spec in Hu. congruence.
Qed.

Lemma correct_tile_length (tile : string) (live : list string) (n : nat) :
  (length live <= n)%nat -> (length (final_state (correct_tile tile live)) <= n)%nat.
Proof.
  intros Hlen. unfold correct_tile.
  destruct (Py.split "_" tile) as [|sx [|sy [|? ?]]]; try done.
  destruct (Py.int sx) as [x|]; [|done].
  destruct (Py.int sy) as [y|]; [|done].
  cbv zeta.
  match goal with |- context [match ?r with Some _ => _ | None => mret tt end] =>
    destruct r as [names|] end; [|done].
  unfold mbind, M_bind, bind, get, put, mret, M_ret, ret, raise; simpl.
  destruct (Py.remove tile live) as [live'|] eqn:Hrm; [|done].
  apply remove_perm, Permutation_length in Hrm. simpl in Hrm.
  destruct names as [[new_x new_y]|]; simpl; [|lia].
  destruct (Py.contains _ live'); simpl; [lia|].
  rewrite length_app. simpl. lia.
Qed.

Lemma group_correction_NoDup (tiles : list string) :
  NoDup tiles -> NoDup (final_state (group_correction tiles)).
Proof.
  intros Hnd. unfold group_correction, mbind, M_bind, bind, get. simpl.
  apply (for_each_keeps NoDup); [apply correct_tile_NoDup|done].
Qed.

Lemma group_correction_length (tiles : list string) :
  (length (final_state (group_correction tiles)) <= length tiles)%nat.
Proof.
  unfold group_correction, mbind, M_bind, bind, get. simpl.
  apply (for_each_keeps (fun l => (length l <= length tiles)%nat)); [|done].
  intros a s. apply correct_tile_length.
Qed.

(** ** The grouping correction over a whole list *)

Lemma spec_rename_settled (tile : string) : needs_fix (spec_rename tile) = false.
Proof.
  unfold spec_rename, needs_fix.
  destruct (parse_tile tile) as [[x y]|] eqn:Hp; [|by rewrite Hp].
  destruct (Z.odd x || Z.odd y) eqn:Hodd; [|by rewrite Hp, Hodd].
  unfold spec_anchor.
  destruct (Z.odd x) eqn:Hx, (Z.odd y) eqn:Hy; try done;
    rewrite parse_tile_name;
    rewrite ?Z.odd_sub, ?Hx, ?Hy; done.
Qed.

Lemma spec_rename_id (tile : string) :
  needs_fix tile = false -> spec_rename tile = tile.
Proof.
  unfold spec_rename, needs_fix.
  destruct (parse_tile tile) as [[x y]|]; [|done]. by intros ->.
Qed.

Lemma filter_split (f : string -> bool) (l : list string) :
  l ≡ₚ List.filter f l ++ List.filter (fun t => negb (f t)) l.
Proof.
  induction l as [|t r IH]; simpl; [done|].
  destruct (f t); simpl.
  - by rewrite <- IH.
  - by rewrite <- Permutation_middle, <- IH.
Qed.

(** The loop, started on a live list that holds the names still to be
    corrected and a rest [E] of settled names. *)
Lemma correction_loop (todo live E : list string) :
  Forall well_formed todo ->
  live ≡ₚ List.filter needs_fix todo ++ E ->
  Forall (fun u => needs_fix u = false) E ->
  exists live',
    for_each correct_tile todo live = (live', Ret tt) /\
    forall u, u ∈ live' <-> u ∈ E \/ u ∈ map spec_rename (List.filter needs_fix todo).
Proof.
  revert live E. induction todo as [|t todo IH]; intros live E Hwf Hperm HE.
  - exists live. split; [done|]. intros u. simpl in *. rewrite Hperm.
    rewrite elem_of_nil. tauto.
  - apply Forall_cons in Hwf as [[[x y] Hp] Hwf].
    simpl. unfold mbind, M_bind, bind. simpl in Hperm.
    destruct (needs_fix t) eqn:Hfix.
    + assert (Hodd : Z.odd x || Z.odd y = true)
        by (unfold needs_fix in Hfix; by rewrite Hp in Hfix).
      rewrite (correct_tile_odd _ _ _ _ Hp Hodd).
      assert (Hin : t ∈ live) by (rewrite Hperm; apply elem_of_cons; by left).
      destruct (remove_present _ _ Hin) as [live1 Hrm]. rewrite Hrm.
      apply remove_perm in Hrm. rewrite Hrm in Hperm.
      apply Permutation_cons_inv in Hperm.
      pose proof (spec_rename_settled t) as Hnew.
      destruct (Py.contains (spec_rename t) live1) eqn:Hc.
      * apply contains_spec in Hc. rewrite Hperm in Hc.
        assert (HinE : spec_rename t ∈ E).
        { apply elem_of_app in Hc as [Hc|Hc]; [|done].
          apply list_elem_of_In, filter_In in Hc as [_ Hc]. congruence. }
        destruct (IH live1 E Hwf Hperm HE) as (live' & Hrun & Hmem).
        exists live'. split; [done|]. intros u. simpl.
        rewrite Hmem, elem_of_cons.
        split; [tauto|]. intros [?|[->|?]]; tauto.
      * assert (Hperm' : (live1 ++ [spec_rename t])%list
                         ≡ₚ List.filter needs_fix todo ++ (E ++ [spec_rename t])).
        { by rewrite Hperm, app_assoc. }
        assert (HE' : Forall (fun u => needs_fix u = false) (E ++ [spec_rename t])).
        { apply Forall_app. split; [done|]. by apply Forall_singleton. }
        destruct (IH _ _ Hwf Hperm' HE') as (live' & Hrun & Hmem).
        exists live'. split; [done|]. intros u. simpl.
        rewrite Hmem, elem_of_app, list_elem_of_singleton, elem_of_cons. tauto.
    + assert (Hx : Z.odd x = false /\ Z.odd y = false).
      { unfold needs_fix in Hfix. rewrite Hp in Hfix. by apply orb_false_elim. }
      destruct Hx as [Hx Hy].
      rewrite (correct_tile_even _ _ _ _ Hp Hx Hy).
      by apply IH.
Qed.

(** On well-formed names the correction ends normally, and the names it
    leaves are those the specification's renaming gives, taken as a set. *)
Lemma group_correction_spec (tiles : list string) :
  Forall well_formed tiles ->
  exists tiles',
    group_correction tiles = (tiles', Ret tt) /\
    forall u, u ∈ tiles' <-> u ∈ map spec_rename tiles.
Proof.
  intros Hwf. unfold group_correction, mbind, M_bind, bind, get.
  destruct (correction_loop tiles tiles
              (List.filter (fun t => negb (needs_fix t)) tiles) Hwf)
    as (tiles' & Hrun & Hmem).
  - apply filter_split.
  - apply Forall_forall. intros u [_ Hu]%list_elem_of_In%filter_In.
    by apply negb_true_iff.
  - exists tiles'. split; [done|]. intros u. rewrite Hmem.
    rewrite !list_elem_of_In, !in_map_iff. setoid_rewrite filter_In. split.
    + intros [[Hu Hs%negb_true_iff]|(t & <- & Ht & _)].
      * exists u. by rewrite spec_rename_id.
      * by exists t.
    + intros (t & <- & Ht). destruct (needs_fix t) eqn:Hfix.
      * right. by exists t.
      * left. rewrite spec_rename_id by done. by rewrite Hfix.
Qed.

(** ** Frame lemmas: what leaves the caller's tile list alone *)

Lemma extract_members_tiles (archive dest : string) (members : list string) (w : World) :
  tiles_obj (final_state (extract_members archive dest members w)) = tiles_obj w.
Proof.
  unfold extract_members.
  apply (for_each_keeps (fun s => tiles_obj s = tiles_obj w)); [|done].
  intros m s Hs. by run_monad.
Qed.

Lemma unzip_all_tiles (env : Env) (archive dir : string) (w : World) :
  tiles_obj (final_state (unzip_all env archive dir w)) = tiles_obj w.
Proof.
  unfold unzip_all.
  pose proof (extract_members_tiles archive dir (namelist env archive) w) as H.
  run_monad. by destruct (extract_members _ _ _ w) as [w' [[]|e]].
Qed.

Lemma op_download_id_tiles (env : Env) (op_dir : string)
    (acc : list string * list string) (tile_id : Z) (w : World) :
  tiles_obj (final_state (op_download_id env op_dir acc tile_id w)) = tiles_obj w.
Proof.
  unfold op_download_id. destruct acc as [zips unzips].
  set (current_op := Py.join op_dir _).
  unfold mbind at 1, M_bind, bind, isfile.
  destruct (bool_decide (current_op ∈ files w)).
  - pose proof (unzip_all_tiles env current_op op_dir w) as H.
    run_monad. by destruct (unzip_all _ _ _ w) as [w' [l|e]].
  - run_monad.
    match goal with |- context [unzip_all env current_op op_dir ?w1] =>
      pose proof (unzip_all_tiles env current_op op_dir w1) as H end.
    run_monad. by destruct (unzip_all _ _ _ _) as [w' [l|e]].
Qed.

(** The ID resolution, written out: the state it leaves and what it
    returns. *)
Lemma op_resolve_ids_run (env : Env) (year : Z) (id_file : string) (w : World) :
  op_resolve_ids env year id_file w =
    let r := if year <=? 2018 then group_correction (tiles_obj w)
             else (tiles_obj w, Ret tt) in
    (set_tiles (final_state r) w,
     match result r with
     | Ret _ => match_ids (filter_year year (read_csv env id_file)) (final_state r) []
     | Raise e => Raise e
     end).
Proof.
  unfold op_resolve_ids. destruct (year <=? 2018); run_monad.
  - destruct (group_correction (tiles_obj w)) as [t' [[]|e]]; simpl; [|done].
    by destruct (match_ids _ t' []).
  - by destruct (match_ids _ (tiles_obj w) []).
Qed.

Lemma op_download_tiles (env : Env) (op_dir : string) (year : Z) (id_file : string)
    (w : World) :
  tiles_obj (final_state (op_download env op_dir year id_file w)) =
    if year <=? 2018 then final_state (group_correction (tiles_obj w))
    else tiles_obj w.
Proof.
  unfold op_download. unfold mbind at 1, M_bind, bind.
  rewrite op_resolve_ids_run. cbv zeta.
  set (r := if year <=? 2018 then _ else _).
  assert (Hr : final_state r =
               if year <=? 2018 then final_state (group_correction (tiles_obj w))
               else tiles_obj w) by (subst r; by destruct (year <=? 2018)).
  rewrite <- Hr.
  destruct (match result r with Ret _ => _ | Raise e => _ end) as [ids|e]; [|done].
  transitivity (tiles_obj (set_tiles (final_state r) w)); [|done].
  apply (fold_m_keeps (fun s => tiles_obj s = tiles_obj (set_tiles (final_state r) w)));
    [|done].
  intros b a s Hs. by rewrite op_download_id_tiles.
Qed.

(** ** The tile-ID resolver: grouping correction *)

Lemma spec_rename_tile_name (x y : Z) :
  spec_rename (tile_name x y) = let '(ax, ay) := spec_anchor x y in tile_name ax ay.
Proof.
  unfold spec_rename, spec_anchor. rewrite parse_tile_name.
  by destruct (Z.odd x), (Z.odd y).
Qed.

(** C1.  For a year up to 2018 and well-formed tile names, the tile list
    that [op_download] leaves holds exactly the corrected names of the
    original list: with exactly one odd coordinate that one is decremented,
    with two odd coordinates both are, with none the name stays; each name of
    the snapshot contributes its correction once, and corrected names are not
    corrected again. *)
Theorem op_download_grouping_correction (env : Env) (op_dir : string) (year : Z)
    (id_file : string) (w : World) :
  year <= 2018 ->
  Forall well_formed (tiles_obj w) ->
  let tiles' := tiles_obj (final_state (op_download env op_dir year id_file w)) in
  (forall u, u ∈ tiles' <-> exists t, t ∈ tiles_obj w /\ u = spec_rename t) /\
  (forall x y, spec_rename (tile_name x y) =
               let '(ax, ay) := spec_anchor x y in tile_name ax ay) /\
  (forall x y, parse_tile (tile_name x y) = Some (x, y)).
Proof.
  intros Hyear Hwf tiles'. split_and!.
  - subst tiles'. rewrite op_download_tiles.
    apply Z.leb_le in Hyear. rewrite Hyear.
    destruct (group_correction_spec _ Hwf) as (t' & Hrun & Hmem).
    rewrite Hrun. simpl. intros u. rewrite Hmem, list_elem_of_fmap.
    split; intros (t & H1 & H2); exists t; done.
  - apply spec_rename_tile_name.
  - apply parse_tile_name.
Qed.

Lemma op_download_grouping_correction_witness :
  2015 <= 2018 /\
  Forall well_formed (tiles_obj (demo_world ["1_1"; "2_3"; "4_4"])) /\
  forall u,
    u ∈ tiles_obj (final_state
           (op_download demo_env "op" 2015 "ids" (demo_world ["1_1"; "2_3"; "4_4"])))
    <-> exists t, t ∈ tiles_obj (demo_world ["1_1"; "2_3"; "4_4"]) /\ u = spec_rename t.
Proof.
  assert (Hwf : Forall well_formed (tiles_obj (demo_world ["1_1"; "2_3"; "4_4"]))).
  { repeat constructor; eexists; vm_compute; reflexivity. }
  split; [lia|]. split; [exact Hwf|].
  apply (op_download_grouping_correction demo_env "op" 2015 "ids"
           (demo_world ["1_1"; "2_3"; "4_4"])); [lia|exact Hwf].
Defined.

Example grouping_correction_run :
  group_correction ["0_0"; "1_1"; "1_0"; "3_2"; "-1_-1"; "02_04"]
  = (["0_0"; "02_04"; "2_2"; "-2_-2"], Ret tt).
Proof. reflexivity. Qed.

(** C2.  For a year up to 2018 and a list without duplicates, the list
    after the correction has no duplicates and is no longer than before;
    the anchor of every original tile occurs in it exactly once; a list that
    holds 1_1 and 0_0 shrinks to the single name 0_0. *)
Theorem op_download_correction_unique (env : Env) (op_dir : string) (year : Z)
    (id_file : string) (w : World) :
  year <= 2018 ->
  NoDup (tiles_obj w) ->
  let tiles' := tiles_obj (final_state (op_download env op_dir year id_file w)) in
  NoDup tiles' /\
  (length tiles' <= length (tiles_obj w))%nat /\
  (Forall well_formed (tiles_obj w) ->
   forall t, t ∈ tiles_obj w ->
             count_occ string_dec tiles' (spec_rename t) = 1%nat) /\
  (tiles_obj w = ["1_1"; "0_0"] -> tiles' = ["0_0"]).
Proof.
  intros Hyear Hnd tiles'. subst tiles'. rewrite op_download_tiles.
  apply Z.leb_le in Hyear. rewrite Hyear.
  pose proof (group_correction_NoDup _ Hnd) as Hnd'.
  split_and!.
  - done.
  - apply group_correction_length.
  - intros Hwf t Ht.
    destruct (group_correction_spec _ Hwf) as (t' & Hrun & Hmem).
    rewrite Hrun in *. simpl in *.
    apply NoDup_ListNoDup in Hnd'.
    apply (proj1 (NoDup_count_occ' string_dec t') Hnd').
    apply list_elem_of_In, Hmem.
    by apply list_elem_of_fmap_2.
  - by intros ->.
Qed.

Lemma op_download_correction_unique_witness :
  2015 <= 2018 /\
  NoDup (tiles_obj (demo_world ["1_1"; "0_0"; "1_0"])) /\
  NoDup (tiles_obj (final_state
           (op_download demo_env "op" 2015 "ids" (demo_world ["1_1"; "0_0"; "1_0"])))).
Proof.
  assert (Hnd : NoDup (tiles_obj (demo_world ["1_1"; "0_0"; "1_0"]))).
  { apply (bool_decide_unpack (NoDup _)). vm_compute. exact I. }
  split; [lia|]. split; [exact Hnd|].
  apply (op_download_correction_unique demo_env "op" 2015 "ids"
           (demo_world ["1_1"; "0_0"; "1_0"])); [lia|exact Hnd].
Defined.



(** ** Grid vintage selector *)

(** C5.  Inside each range of the vintage table the selector returns the
    grid archive and the label of that range; being a function of the year
    into an outcome, it reads and writes no state. *)
Theorem dem_year_func_table (year lo hi : Z) (url label : string) :
  (lo, hi, url, label) ∈ vintage_table ->
  lo <= year <= hi ->
  dem_year_func year = Ret (url, label).
Proof.
  unfold vintage_table. rewrite !elem_of_cons, elem_of_nil.
  unfold dem_year_func.
  intros [H|[H|[H|[]]]] Hyear; injection H as -> -> -> ->;
    repeat match goal with
           | |- context [?a <=? ?b] => destruct (Z.leb_spec a b); try lia
           | |- context [?a >=? ?b] => destruct (Z.geb_spec a b); try lia
           end; reflexivity.
Qed.

Lemma dem_year_func_table_witness :
  (2014, 2019, url_2014_2019, "2014-2019") ∈ vintage_table /\
  2014 <= 2016 <= 2019 /\
  dem_year_func 2016 = Ret (url_2014_2019, "2014-2019").
Proof.
  assert (Hin : (2014, 2019, url_2014_2019, "2014-2019") ∈ vintage_table).
  { unfold vintage_table. apply elem_of_cons. right. apply elem_of_cons. by left. }
  split; [exact Hin|]. split; [lia|].
  apply (dem_year_func_table 2016 2014 2019 url_2014_2019 "2014-2019" Hin). lia.
Defined.

Lemma dem_year_func_above (year : Z) :
  2025 < year -> dem_year_func year = Raise (ValueError unsupported_year_msg).
Proof.
  intros Hyear. unfold dem_year_func.
  repeat match goal with
         | |- context [?a <=? ?b] => destruct (Z.leb_spec a b); try lia
         end; reflexivity.
Qed.

Lemma dem_year_func_below (year : Z) :
  year < 2010 -> dem_year_func year = Ret (url_2014_2019, "2014-2019").
Proof.
  intros Hyear. unfold dem_year_func.
  repeat match goal with
         | |- context [?a <=? ?b] => destruct (Z.leb_spec a b); try lia
         | |- context [?a >=? ?b] => destruct (Z.geb_spec a b); try lia
         end; reflexivity.
Qed.

(** C4.  The selector does not fail below 2010: the years 2009 and 1997
    get the grid of 2014-2019, although the message of the exception it
    raises above 2025 gives 2010 as the first supported year. *)
Theorem dem_year_func_accepts_early_years :
  dem_year_func 2009 = Ret (url_2014_2019, "2014-2019") /\
  dem_year_func 1997 = Ret (url_2014_2019, "2014-2019") /\
  dem_year_func 2026 = Raise (ValueError unsupported_year_msg).
Proof. split_and!; reflexivity. Qed.

(** ** The tile-ID resolver: ID matching *)

Lemma tile_match_first (lookup : list row) (tile : string) :
  hd_error (tile_match lookup tile) = first_row lookup tile.
Proof.
  unfold tile_match, first_row. induction lookup as [|r l IH]; simpl; [done|].
  by destruct (String.eqb (row_tilename r) tile).
Qed.

Lemma first_row_None (lookup : list row) (tile : string) :
  first_row lookup tile = None <-> forall r, r ∈ lookup -> row_tilename r <> tile.
Proof.
  unfold first_row. split.
  - intros H r Hr Heq. apply list_elem_of_In in Hr.
    pose proof (find_none _ _ H r Hr) as Hf. simpl in Hf.
    by apply String.eqb_neq in Hf.
  - intros H. destruct (List.find _ lookup) as [r|] eqn:Hf; [|done].
    apply find_some in Hf as [Hr Heq].
    apply String.eqb_eq in Heq. apply list_elem_of_In in Hr. by destruct (H r Hr).
Qed.

Lemma match_ids_acc (lookup : list row) (tiles : list string) (acc : list Z) :
  match_ids lookup tiles acc =
    match match_ids lookup tiles [] with
    | Ret ids => Ret (acc ++ ids)%list
    | Raise e => Raise e
    end.
Proof.
  revert acc. induction tiles as [|t tiles IH]; intros acc; simpl.
  - by rewrite app_nil_r.
  - destruct (tile_match lookup t) as [|r ?]; [done|].
    rewrite (IH (acc ++ [row_id r])%list), (IH [row_id r]).
    destruct (match_ids lookup tiles []); [|done]. by rewrite <- app_assoc.
Qed.

Lemma match_ids_missing (lookup : list row) (tiles : list string) :
  (exists tile, tile ∈ tiles /\ first_row lookup tile = None) ->
  match_ids lookup tiles [] = Raise (MissingAerialCoverage missing_coverage_msg).
Proof.
  intros (tile & Hin & Hnone). induction tiles as [|t tiles IH].
  - by apply elem_of_nil in Hin.
  - simpl. pose proof (tile_match_first lookup t) as Hhd.
    destruct (tile_match lookup t) as [|r ?]; [done|].
    rewrite match_ids_acc.
    apply elem_of_cons in Hin as [->|Hin].
    + simpl in Hhd. congruence.
    + by rewrite (IH Hin).
Qed.

Lemma match_ids_found (lookup : list row) (tiles : list string) :
  (forall tile, tile ∈ tiles -> is_Some (first_row lookup tile)) ->
  exists idlist,
    match_ids lookup tiles [] = Ret idlist /\
    Forall2 (fun tile id => exists r, first_row lookup tile = Some r /\ id = row_id r)
            tiles idlist.
Proof.
  induction tiles as [|t tiles IH]; intros Hall.
  - exists []. by split; [|constructor].
  - destruct IH as (ids & Hrun & Hids).
    { intros tile Hin. apply Hall. apply elem_of_cons. by right. }
    destruct (Hall t) as [r Hr]; [apply elem_of_cons; by left|].
    pose proof (tile_match_first lookup t) as Hhd. rewrite Hr in Hhd.
    simpl. destruct (tile_match lookup t) as [|r' ?]; [done|].
    injection Hhd as ->. rewrite match_ids_acc, Hrun.
    exists (row_id r :: ids). split; [done|]. constructor; [by exists r|done].
Qed.

Lemma correction_settled (todo live : list string) :
  Forall settled todo -> for_each correct_tile todo live = (live, Ret tt).
Proof.
  induction 1 as [|t todo [[[x y] Hp] Hfix] _ IH]; [done|].
  simpl. unfold mbind, M_bind, bind.
  unfold needs_fix in Hfix. rewrite Hp in Hfix.
  apply orb_false_elim in Hfix as [Hx Hy].
  by rewrite (correct_tile_even _ _ _ _ Hp Hx Hy).
Qed.

Lemma extract_members_ends (archive dest : string) (members : list string) (w : World) :
  exists w', extract_members archive dest members w = (w', Ret tt).
Proof.
  unfold extract_members. revert w.
  induction members as [|m l IH]; intros w; [by exists w|].
  simpl. run_monad. apply IH.
Qed.

Lemma unzip_all_ends (env : Env) (archive dir : string) (w : World) :
  exists w', unzip_all env archive dir w
             = (w', Ret (map (Py.join dir) (namelist env archive))).
Proof.
  unfold unzip_all.
  destruct (extract_members_ends archive dir (namelist env archive) w) as [w' H].
  exists w'. run_monad. by rewrite H.
Qed.

Lemma op_download_id_ends (env : Env) (op_dir : string) (zips unzips : list string)
    (tile_id : Z) (w : World) :
  exists w' unzips',
    op_download_id env op_dir (zips, unzips) tile_id w
    = (w', Ret ((zips ++ [op_archive op_dir tile_id])%list, unzips')).
Proof.
  unfold op_download_id, op_archive.
  set (current_op := Py.join op_dir _).
  unfold mbind at 1, M_bind, bind, isfile.
  destruct (bool_decide (current_op ∈ files w)).
  - destruct (unzip_all_ends env current_op op_dir w) as [w' H].
    run_monad. rewrite H. eauto.
  - run_monad.
    match goal with |- context [unzip_all env current_op op_dir ?w1] =>
      destruct (unzip_all_ends env current_op op_dir w1) as [w' H] end.
    run_monad. rewrite H. eauto.
Qed.

(** The download loop of [op_download] fetches or unpacks one archive for
    every ID, in the order of the IDs. *)
Lemma op_download_ids_archives (env : Env) (op_dir : string) (ids : list Z)
    (zips unzips : list string) (w : World) :
  exists w' unzips',
    fold_m (op_download_id env op_dir) ids (zips, unzips) w
    = (w', Ret ((zips ++ map (op_archive op_dir) ids)%list, unzips')).
Proof.
  revert zips unzips w. induction ids as [|i ids IH]; intros zips unzips w.
  - exists w, unzips. simpl. by rewrite app_nil_r.
  - rewrite fold_m_cons.
    destruct (op_download_id_ends env op_dir zips unzips i w) as (w1 & u1 & ->).
    destruct (IH (zips ++ [op_archive op_dir i])%list u1 w1) as (w' & u' & ->).
    exists w', u'. by rewrite <- app_assoc.
Qed.

Lemma set_tiles_same (w : World) : set_tiles (tiles_obj w) w = w.
Proof. by destruct w. Qed.

Lemma op_resolve_ids_settled (env : Env) (year : Z) (id_file : string) (w : World) :
  2018 < year \/ Forall settled (tiles_obj w) ->
  op_resolve_ids env year id_file w
  = (w, match_ids (filter_year year (read_csv env id_file)) (tiles_obj w) []).
Proof.
  intros Hcase. rewrite op_resolve_ids_run. cbv zeta.
  destruct (Z.leb_spec year 2018) as [Hle|Hgt].
  - destruct Hcase as [?|Hs]; [lia|].
    unfold group_correction, mbind, M_bind, bind, get.
    rewrite (correction_settled _ _ Hs). simpl. by rewrite set_tiles_same.
  - simpl. by rewrite set_tiles_same.
Qed.

(** C3, as the code has it.  On a tile list that needs no correction (or for
    a year after 2018): if a tile has no row in the table filtered by the
    year, the resolver raises the missing-coverage exception with its one
    fixed message, no ID list is returned and [op_download] has done nothing;
    otherwise there is one ID for every tile, in the order of the tiles, each
    from the first row of the filtered table with that tile name, and one
    archive per ID. *)
Theorem op_download_id_matching (env : Env) (op_dir : string) (year : Z)
    (id_file : string) (w : World) :
  2018 < year \/ Forall settled (tiles_obj w) ->
  let lookup := filter_year year (read_csv env id_file) in
  let ids := op_resolve_ids env year id_file w in
  let run := op_download env op_dir year id_file w in
  final_state ids = w /\
  ((exists tile, tile ∈ tiles_obj w /\
                 forall r, r ∈ lookup -> row_tilename r <> tile) ->
     result ids = Raise (MissingAerialCoverage missing_coverage_msg) /\
     run = (w, Raise (MissingAerialCoverage missing_coverage_msg))) /\
  ((forall tile, tile ∈ tiles_obj w ->
                 exists r, r ∈ lookup /\ row_tilename r = tile) ->
     exists idlist,
       result ids = Ret idlist /\
       length idlist = length (tiles_obj w) /\
       Forall2 (fun tile id =>
                  exists r, first_row lookup tile = Some r /\ id = row_id r)
               (tiles_obj w) idlist /\
       exists w' unzips,
         run = (w', Ret (map (op_archive op_dir) idlist, unzips))).
Proof.
  intros Hcase lookup ids run. subst ids run.
  unfold op_download, mbind at 1 2, M_bind, bind.
  rewrite (op_resolve_ids_settled _ _ _ _ Hcase). fold lookup.
  unfold final_state, result. simpl. split_and!.
  - done.
  - intros (tile & Hin & Hnone).
    rewrite match_ids_missing; [done|].
    exists tile. split; [done|]. by apply first_row_None.
  - intros Hall.
    destruct (match_ids_found lookup (tiles_obj w)) as (idlist & Hrun & Hids).
    { intros tile Hin. destruct (Hall tile Hin) as (r & Hr & Heq).
      destruct (first_row lookup tile) eqn:Hf; [by eexists|].
      destruct (proj1 (first_row_None lookup tile) Hf r Hr Heq). }
    rewrite Hrun. exists idlist. split_and!; [done| |done|].
    + symmetry. by eapply Forall2_length.
    + destruct (op_download_ids_archives env op_dir idlist [] [] w)
        as (w' & unzips & ->).
      by exists w', unzips.
Qed.

Lemma op_download_id_matching_witness :
  (2018 < 2015 \/ Forall settled (tiles_obj (demo_world ["0_0"]))) /\
  final_state (op_resolve_ids demo_env 2015 "ids" (demo_world ["0_0"]))
  = demo_world ["0_0"] /\
  result (op_resolve_ids demo_env 2015 "ids" (demo_world ["0_0"])) = Ret [7].
Proof.
  assert (H : 2018 < 2015 \/ Forall settled (tiles_obj (demo_world ["0_0"]))).
  { right. repeat constructor. eexists. vm_compute. reflexivity. }
  split; [exact H|]. split.
  - apply (op_download_id_matching demo_env "op" 2015 "ids" (demo_world ["0_0"]) H).
  - reflexivity.
Defined.

(** C3, as the specification words it, fails: the message of the exception
    is the same for every tile and year, and mentions neither. *)
Lemma missing_coverage_message_names_nothing :
  ~ (exists msg,
       result (op_download demo_env "op" 2012 "ids" (demo_world ["0_0"]))
       = Raise (MissingAerialCoverage msg) /\
       mentions msg "0_0" 2012 = true).
Proof.
  intros (msg & Hres & Hm). vm_compute in Hres.
  injection Hres as <-. vm_compute in Hm. discriminate.
Qed.

(** ** Cleanup *)

Lemma delete_one_list (items : list pyobj) :
  delete_one (PList items) = for_each delete_one items.
Proof. reflexivity. Qed.

Lemma delete_paths (paths : list string) (w : World) :
  exists w',
    delete_one (PList (map PStr paths)) w = (w', Ret tt) /\
    files w' = files w ∖ list_to_set paths /\
    tiles_obj w' = tiles_obj w.
Proof.
  rewrite delete_one_list. revert w.
  induction paths as [|p paths IH]; intros w.
  - exists w. split_and!; [done| |done]. simpl. set_solver.
  - simpl map. rewrite for_each_cons. simpl delete_one.
    unfold mbind at 1, M_bind, bind, isfile.
    destruct (bool_decide (p ∈ files w)) eqn:Hp.
    + unfold modify. destruct (IH (set_files (files w ∖ {[p]}) w)) as (w' & -> & Hf & Ht).
      exists w'. split_and!; [done| |done]. rewrite Hf. simpl. set_solver.
    + unfold emit, modify.
      match goal with |- context [for_each delete_one _ ?w1] =>
        destruct (IH w1) as (w' & -> & Hf & Ht) end.
      exists w'. split_and!; [done| |done]. rewrite Hf. simpl.
      apply bool_decide_eq_false in Hp. set_solver.
Qed.

Lemma delete_lists (lists : list (list string)) (w : World) :
  exists w',
    delete_residual_files [paths_obj lists] w = (w', Ret tt) /\
    files w' = files w ∖ list_to_set (concat lists) /\
    tiles_obj w' = tiles_obj w.
Proof.
  unfold delete_residual_files, paths_obj. rewrite delete_one_list. revert w.
  induction lists as [|l lists IH]; intros w.
  - exists w. split_and!; [done| |done]. simpl. set_solver.
  - simpl map. rewrite for_each_cons.
    destruct (delete_paths l w) as (w1 & -> & Hf1 & Ht1).
    destruct (IH w1) as (w' & -> & Hf & Ht).
    exists w'. split_and!; [done| |congruence].
    rewrite Hf, Hf1. simpl. rewrite list_to_set_app_L. set_solver.
Qed.

(** What the cleanup does when [keep_files] is a list: with "all" in it
    nothing is deleted; with only "zip" in it no unpacked or intermediate path
    is a file afterwards, and an archive that is not also listed among those
    stays. *)
Lemma cleanup_with_keep_list (zips unzips inter : list string) (w : World) :
  cleanup zips unzips inter (Some ["all"]) w = (w, Ret tt) /\
  exists w',
    cleanup zips unzips inter (Some ["zip"]) w = (w', Ret tt) /\
    (forall p, p ∈ unzips \/ p ∈ inter -> p ∉ files w') /\
    (forall p, p ∈ zips -> p ∈ files w -> p ∉ unzips -> p ∉ inter -> p ∈ files w').
Proof.
  split; [reflexivity|].
  unfold cleanup. simpl determine_files_to_delete.
  destruct (delete_lists [unzips; inter] w) as (w' & Hrun & Hf & _).
  exists w'. split; [exact Hrun|]. rewrite Hf. simpl. rewrite app_nil_r.
  split.
  - intros p Hp. rewrite elem_of_difference, elem_of_list_to_set, elem_of_app. tauto.
  - intros p _ Hp Hu Hi.
    rewrite elem_of_difference, elem_of_list_to_set, elem_of_app. tauto.
Qed.


(** ** The entry point *)

(** C7.  A run with [data_choice="both"] is the run with
    [data_choice="dem"]: the orthophoto branch hangs on an [elif] and is
    never reached.  On an AOI over tile 0_0 the choice "op" fetches the
    orthophoto archive, the choice "both" fetches none. *)
Theorem execute_both_is_dem (env : Env) (root shapefile : string) (year : Z)
    (id_file dem_format : string) (data_dir dem_dir op_dir : option string)
    (keep_files : option (list string)) (out_name epsg : string) (w : World) :
  geoportalth_execute env root shapefile "both" year id_file dem_format
    data_dir dem_dir op_dir keep_files out_name epsg w
  = geoportalth_execute env root shapefile "dem" year id_file dem_format
      data_dir dem_dir op_dir keep_files out_name epsg w /\
  op_fetches (trace (final_state
     (geoportalth_execute demo_env_covered "r" "aoi.shp" "op" 2015 "ids" "dgm"
        None None None (Some ["zip"]) "merged" default_epsg (demo_world []))))
  = [op_endpoint +:+ "7"] /\
  op_fetches (trace (final_state
     (geoportalth_execute demo_env_covered "r" "aoi.shp" "both" 2015 "ids" "dgm"
        None None None (Some ["zip"]) "merged" default_epsg (demo_world []))))
  = [].
Proof. split_and!; [reflexivity|by vm_compute..]. Qed.

(** ** No coverage *)

Lemma downloads_app (tr1 tr2 : list event) :
  downloads (tr1 ++ tr2) = (downloads tr1 ++ downloads tr2)%list.
Proof. apply List.filter_app. Qed.

Lemma extract_members_downloads (archive dest : string) (members : list string)
    (w : World) :
  exists w',
    extract_members archive dest members w = (w', Ret tt) /\
    downloads (trace w') = downloads (trace w).
Proof.
  unfold extract_members. revert w.
  induction members as [|m l IH]; intros w; [by exists w|].
  rewrite for_each_cons. run_monad.
  match goal with |- context [for_each _ l ?w1] =>
    destruct (IH w1) as (w' & -> & Hd) end.
  exists w'. split; [done|]. rewrite Hd. simpl.
  rewrite downloads_app. simpl. by rewrite app_nil_r.
Qed.

(** The grid download ends normally; it fetches and writes the grid
    archive of the vintage, or nothing when the archive is on disk. *)
Lemma tile_grid_download_downloads (env : Env) (data_dir dem_year request : string)
    (w : World) :
  exists w',
    tile_grid_download env data_dir dem_year request w = (w', Ret tt) /\
    downloads (trace w') =
      (downloads (trace w) ++
       if bool_decide (grid_archive data_dir dem_year ∈ files w) then []
       else [HttpGet request; WriteFile (grid_archive data_dir dem_year)])%list.
Proof.
  unfold tile_grid_download. fold (grid_archive data_dir dem_year).
  set (archive := grid_archive data_dir dem_year).
  unfold mbind at 1, M_bind, bind, isfile.
  destruct (bool_decide (archive ∈ files w)).
  - run_monad. rewrite app_nil_r.
    destruct (String.eqb dem_year "2020-2025"); apply extract_members_downloads.
  - run_monad.
    destruct (String.eqb dem_year "2020-2025");
      match goal with |- context [extract_members ?a ?d ?l ?w1] =>
        destruct (extract_members_downloads a d l w1) as (w' & -> & Hd) end;
      exists w'; (split; [done|]); rewrite Hd; simpl;
      rewrite !downloads_app; simpl; by rewrite <- app_assoc.
Qed.

Lemma intersection_empty (env : Env) (data_dir dem_year shapefile grid : string) :
  grid_path data_dir dem_year = Ret grid ->
  overlay env shapefile grid = [] ->
  intersection env data_dir dem_year shapefile
  = Raise (AreaOutOfBounds out_of_bounds_msg).
Proof. intros Hg Ho. unfold intersection. by rewrite Hg, Ho. Qed.

(** C8.  When the overlay of the AOI with the grid of the vintage is empty,
    [intersection] raises the out-of-bounds exception and returns no list;
    the whole run then ends with that exception in the state the grid
    download left, and the only things fetched or written are the grid
    archive of the vintage: no tile archive. *)
Theorem no_coverage_before_tile_downloads (env : Env) (root shapefile data_choice : string)
    (year : Z) (id_file dem_format : string) (data_dir dem_dir op_dir : option string)
    (keep_files : option (list string)) (out_name request dem_year grid : string)
    (w : World) :
  dem_format <> "las" ->
  dem_year_func year = Ret (request, dem_year) ->
  grid_path (default (Py.join root "data") data_dir) dem_year = Ret grid ->
  overlay env shapefile grid = [] ->
  let data_dir' := default (Py.join root "data") data_dir in
  let r := geoportalth_execute env root shapefile data_choice year id_file
             dem_format data_dir dem_dir op_dir keep_files out_name default_epsg w in
  intersection env data_dir' dem_year shapefile
    = Raise (AreaOutOfBounds out_of_bounds_msg) /\
  result r = Raise (AreaOutOfBounds out_of_bounds_msg) /\
  final_state r = final_state (tile_grid_download env data_dir' dem_year request w) /\
  forall e, e ∈ downloads (trace (final_state r)) ->
            e ∈ downloads (trace w) \/
            e = HttpGet request \/ e = WriteFile (grid_archive data_dir' dem_year).
Proof.
  intros Hlas Hyear Hgrid Hover data_dir' r.
  pose proof (intersection_empty env data_dir' dem_year shapefile grid Hgrid Hover)
    as Hint.
  split; [exact Hint|].
  destruct (tile_grid_download_downloads env data_dir' dem_year request w)
    as (w' & Hrun & Hd).
  assert (Hr : r = (w', Raise (AreaOutOfBounds out_of_bounds_msg))).
  { subst r. unfold geoportalth_execute. simpl.
    apply String.eqb_neq in Hlas. rewrite Hlas, Hyear.
    fold data_dir'. unfold mbind at 1, M_bind, bind. by rewrite Hrun, Hint. }
  rewrite Hr, Hrun. unfold result, final_state. simpl.
  split_and!; [done..|].
  intros e. rewrite Hd, elem_of_app.
  destruct (bool_decide _).
  - rewrite elem_of_nil. tauto.
  - rewrite !elem_of_cons, elem_of_nil. tauto.
Qed.

Lemma no_coverage_before_tile_downloads_witness :
  "dgm" <> "las" /\
  dem_year_func 2015 = Ret (url_2014_2019, "2014-2019") /\
  overlay demo_env "aoi.shp"
    "r/data/Stand_2014-2019/DGM1_2014-2019_Erfass-lt-Meta_UTM_2020-04-20--17127.shp" = [] /\
  result (geoportalth_execute demo_env "r" "aoi.shp" "both" 2015 "ids" "dgm"
            None None None None "merged" default_epsg (demo_world []))
  = Raise (AreaOutOfBounds out_of_bounds_msg).
Proof.
  split; [discriminate|]. split; [reflexivity|]. split; [reflexivity|].
  apply (no_coverage_before_tile_downloads demo_env "r" "aoi.shp" "both" 2015 "ids"
           "dgm" None None None None "merged" url_2014_2019 "2014-2019"
           "r/data/Stand_2014-2019/DGM1_2014-2019_Erfass-lt-Meta_UTM_2020-04-20--17127.shp"
           (demo_world [])); [discriminate|reflexivity|reflexivity|reflexivity].
Defined.

(** ** The ID-table builder *)

Lemma head_requests_app (tr1 tr2 : list event) :
  head_requests (tr1 ++ tr2) = (head_requests tr1 ++ head_requests tr2)%list.
Proof. apply flat_map_app. Qed.

Lemma op_tilename_finder_spec (env : Env) (request : string) (index : Z) (w : World) :
  answer_ok (content_disposition env request) = true ->
  exists entry,
    op_tilename_finder env request index w
    = (MkWorld (tiles_obj w) (files w) (trace w ++ [HttpHead request]), Ret entry) /\
    entry_ok entry = true.
Proof.
  unfold answer_ok, op_tilename_finder. intros Hok. run_monad.
  destruct (content_disposition env request) as [text|]; [|by exists None].
  destruct (Py.split "=" text) as [|first [|second rest]]; try done.
  destruct (Py.substring_of "dop" _) eqn:Hdop.
  - eexists. split; [reflexivity|]. exact Hok.
  - by exists None.
Qed.

Lemma save_entry_spec (id_file : string) (entry : option (Z * string)) (w : World) :
  entry_ok entry = true ->
  exists w',
    save_entry id_file entry w = (w', Ret tt) /\
    head_requests (trace w') = head_requests (trace w).
Proof.
  unfold entry_ok, save_entry. intros Hok.
  destruct entry as [[index name]|]; [|by exists w].
  destruct (Py.split_str "_32" name) as [|first [|subentry rest]]; try done.
  destruct (Py.startswith "_" subentry); run_monad;
    (eexists; split; [reflexivity|]); simpl;
    rewrite head_requests_app; simpl; by rewrite app_nil_r.
Qed.

Section Builder.
Context (env : Env).
Hypothesis answers_ok : forall url, answer_ok (content_disposition env url) = true.

Lemma request_batch (indices : list Z) (acc : list (option (Z * string)))
    (w : World) :
  Forall (fun e => entry_ok e = true) acc ->
  exists w' names_list,
    fold_m (request_index env) indices acc w = (w', Ret names_list) /\
    Forall (fun e => entry_ok e = true) names_list /\
    head_requests (trace w')
    = (head_requests (trace w) ++ map head_url indices)%list.
Proof.
  revert acc w. induction indices as [|i indices IH]; intros acc w Hacc.
  - exists w, acc. split_and!; [done..|]. simpl. by rewrite app_nil_r.
  - rewrite fold_m_cons. unfold request_index at 1. rewrite mbind_run.
    destruct (op_tilename_finder_spec env (op_endpoint +:+ Py.str i) i w
                (answers_ok _)) as (entry & -> & Hentry).
    rewrite mret_run.
    match goal with |- context [fold_m _ indices ?a ?w1] =>
      destruct (IH a w1) as (w' & names & -> & Hnames & Hreq) end.
    { apply Forall_app. split; [done|]. by apply Forall_singleton. }
    exists w', names. split_and!; [done..|].
    rewrite Hreq. simpl. rewrite head_requests_app. simpl.
    by rewrite <- app_assoc.
Qed.

Lemma save_batch (id_file : string) (names_list : list (option (Z * string)))
    (w : World) :
  Forall (fun e => entry_ok e = true) names_list ->
  exists w',
    for_each (save_entry id_file) names_list w = (w', Ret tt) /\
    head_requests (trace w') = head_requests (trace w).
Proof.
  intros Hok. revert w. induction Hok as [|e l He _ IH]; intros w; [by exists w|].
  rewrite for_each_cons.
  destruct (save_entry_spec id_file e w He) as (w1 & -> & H1).
  destruct (IH w1) as (w' & -> & H'). exists w'. split; congruence.
Qed.

Lemma run_batch_spec (id_file : string) (safe_step current : Z) (w : World) :
  exists w',
    run_batch env id_file safe_step current w = (w', Ret tt) /\
    head_requests (trace w')
    = (head_requests (trace w) ++ map head_url (batch_ids current safe_step))%list.
Proof.
  unfold run_batch. rewrite mbind_run.
  destruct (request_batch (batch_ids current safe_step) [] w)
    as (w1 & names & -> & Hnames & Hreq); [constructor|].
  destruct (save_batch id_file names w1 Hnames) as (w' & -> & H').
  exists w'. split; congruence.
Qed.

Lemma run_batches (id_file : string) (safe_step : Z) (currents : list Z) (w : World) :
  exists w',
    for_each (run_batch env id_file safe_step) currents w = (w', Ret tt) /\
    head_requests (trace w')
    = (head_requests (trace w)
       ++ map head_url (requested_ids currents safe_step))%list.
Proof.
  revert w. induction currents as [|c currents IH]; intros w.
  - exists w. split; [done|]. simpl. by rewrite app_nil_r.
  - rewrite for_each_cons.
    destruct (run_batch_spec id_file safe_step c w) as (w1 & -> & H1).
    destruct (IH w1) as (w' & -> & H'). exists w'. split; [done|].
    rewrite H', H1. unfold requested_ids. simpl.
    by rewrite map_app, app_assoc.
Qed.
End Builder.

(** ** Which IDs the builder asks for *)

Lemma range1_elem (a b x : Z) : x ∈ Py.range1 a b <-> a <= x < b.
Proof.
  unfold Py.range1. rewrite list_elem_of_fmap. split.
  - intros (i & -> & Hi). apply list_elem_of_In, in_seq in Hi. lia.
  - intros Hx. exists (Z.to_nat (x - a)). split; [lia|].
    apply list_elem_of_In, in_seq. lia.
Qed.

Lemma range1_app (a b c : Z) :
  a <= b -> b <= c -> (Py.range1 a b ++ Py.range1 b c)%list = Py.range1 a c.
Proof.
  intros Hab Hbc. unfold Py.range1.
  replace (Z.to_nat (c - a)) with (Z.to_nat (b - a) + Z.to_nat (c - b))%nat by lia.
  rewrite seq_app, map_app. f_equal. simpl.
  assert (Hseq : seq (Z.to_nat (b - a)) (Z.to_nat (c - b))
                 = Nat.add (Z.to_nat (b - a)) <$> seq 0 (Z.to_nat (c - b))).
  { rewrite fmap_add_seq. f_equal. lia. }
  rewrite Hseq, map_map. apply map_ext. intros i. lia.
Qed.

Lemma batches_concat (start safe_step : Z) (n : nat) :
  1 <= safe_step ->
  requested_ids (map (fun i => start + Z.of_nat i * safe_step) (seq 0 n)) safe_step
  = Py.range1 start (start + Z.of_nat n * safe_step).
Proof.
  intros Hstep. unfold requested_ids. induction n as [|n IH].
  - simpl. unfold Py.range1. by replace (Z.to_nat _) with 0%nat by lia.
  - rewrite seq_S, !map_app, concat_app, IH. simpl. rewrite app_nil_r.
    unfold batch_ids. rewrite range1_app; [f_equal|..]; nia.
Qed.

Lemma range_batches (start stop safe_step : Z) :
  start <= stop -> 1 <= safe_step ->
  Py.range start (stop + 1) safe_step
  = Some (map (fun i => start + Z.of_nat i * safe_step)
            (seq 0 (Z.to_nat ((stop - start) / safe_step + 1)))).
Proof.
  intros Hle Hstep. unfold Py.range.
  destruct (Z.eqb_spec safe_step 0); [lia|].
  destruct (Z.ltb_spec 0 safe_step); [|lia].
  do 3 f_equal.
  replace (stop + 1 - start + safe_step - 1) with (stop - start + 1 * safe_step) by lia.
  rewrite Z.div_add by lia. done.
Qed.

(** C10.  For [start <= end], a step of at least one and a portal whose
    answers can be taken apart, the builder ends normally and has asked for
    the headers of exactly the IDs of the batches
    [range(current, current + safe_step)], [current] running through
    [range(start, end + 1, safe_step)], in that order; these are all IDs from
    [start] up to a multiple of the step, and when [end + 1 - start] is no
    multiple of the step the last of them lies above [end]. *)
Theorem op_tilelist_creator_requests (env : Env) (root id_file : string)
    (n_jobs start stop safe_step : Z) (w : World) :
  start <= stop ->
  1 <= safe_step ->
  (forall url, answer_ok (content_disposition env url) = true) ->
  let r := op_tilelist_creator env root id_file n_jobs start stop safe_step w in
  let batches := (stop - start) / safe_step + 1 in
  exists currents,
    Py.range start (stop + 1) safe_step = Some currents /\
    result r = Ret tt /\
    head_requests (trace (final_state r))
    = (head_requests (trace w)
       ++ map head_url (requested_ids currents safe_step))%list /\
    requested_ids currents safe_step
    = Py.range1 start (start + batches * safe_step) /\
    ((stop + 1 - start) mod safe_step <> 0 ->
     let last := start + batches * safe_step - 1 in
     stop < last /\ last ∈ requested_ids currents safe_step).
Proof.
  intros Hle Hstep Hok r batches.
  pose proof (range_batches start stop safe_step Hle Hstep) as Hrange.
  fold batches in Hrange.
  assert (Hbatches : 1 <= batches).
  { subst batches. pose proof (Z.div_pos (stop - start) safe_step). lia. }
  set (currents := map _ _) in Hrange. exists currents.
  assert (Hids : requested_ids currents safe_step
                 = Py.range1 start (start + batches * safe_step)).
  { subst currents. rewrite batches_concat by done. do 2 f_equal. lia. }
  split_and!.
  - done.
  - subst r. unfold op_tilelist_creator. rewrite mbind_run. unfold isfile.
    rewrite Hrange.
    destruct (bool_decide _); run_monad;
      match goal with |- context [for_each _ currents ?w1] =>
        destruct (run_batches env Hok (Py.join root id_file) safe_step currents w1)
          as (w' & -> & _) end; done.
  - subst r. unfold op_tilelist_creator. rewrite mbind_run. unfold isfile.
    rewrite Hrange.
    destruct (bool_decide _); run_monad;
      match goal with |- context [for_each _ currents ?w1] =>
        destruct (run_batches env Hok (Py.join root id_file) safe_step currents w1)
          as (w' & -> & Hreq) end; simpl; rewrite Hreq; simpl; [done|].
    rewrite head_requests_app. simpl. by rewrite app_nil_r.
  - done.
  - intros Hmod last. rewrite Hids, range1_elem. subst last.
    assert (stop + 1 - start < batches * safe_step); [|lia].
    subst batches.
    pose proof (Z.div_mod (stop - start) safe_step ltac:(lia)) as Hdm.
    pose proof (Z.mod_pos_bound (stop - start) safe_step ltac:(lia)) as Hb.
    assert (Hne : (stop - start) mod safe_step <> safe_step - 1).
    { intros Heq. apply Hmod.
      replace (stop + 1 - start) with (((stop - start) / safe_step + 1) * safe_step) by lia.
      apply Z.mod_mul. lia. }
    nia.
Qed.

Lemma op_tilelist_creator_requests_witness :
  3 <= 6 /\ 1 <= 3 /\
  (forall url, answer_ok (content_disposition demo_env url) = true) /\
  head_requests (trace (final_state
     (op_tilelist_creator demo_env "r" "ids" 8 3 6 3 (demo_world []))))
  = map head_url [3; 4; 5; 6; 7; 8].
Proof.
  split; [lia|]. split; [lia|]. split; [reflexivity|].
  destruct (op_tilelist_creator_requests demo_env "r" "ids" 8 3 6 3 (demo_world []))
    as (currents & Hrange & _ & Hreq & _); [lia|lia|reflexivity|].
  injection Hrange as <-. exact Hreq.
Defined.

(** ** Download and unpack *)

Lemma extract_members_spec (archive dest : string) (members : list string) (w : World) :
  exists w',
    extract_members archive dest members w = (w', Ret tt) /\
    files w' = files w ∪ list_to_set (map (Py.join dest) members) /\
    tiles_obj w' = tiles_obj w /\
    downloads (trace w') = downloads (trace w).
Proof.
  unfold extract_members. revert w.
  induction members as [|m l IH]; intros w.
  - exists w. split_and!; [done| |done..]. simpl. set_solver.
  - rewrite for_each_cons. run_monad.
    match goal with |- context [for_each _ l ?w1] =>
      destruct (IH w1) as (w' & -> & Hf & Ht & Hd) end.
    exists w'. split_and!; [done| |done|].
    + rewrite Hf. simpl. set_solver.
    + rewrite Hd. simpl. rewrite downloads_app. simpl. by rewrite app_nil_r.
Qed.

Lemma unzip_all_spec (env : Env) (archive dir : string) (w : World) :
  exists w',
    unzip_all env archive dir w = (w', Ret (member_paths env dir archive)) /\
    files w' = files w ∪ list_to_set (member_paths env dir archive) /\
    tiles_obj w' = tiles_obj w /\
    downloads (trace w') = downloads (trace w).
Proof.
  unfold unzip_all. rewrite mbind_run.
  destruct (extract_members_spec archive dir (namelist env archive) w)
    as (w' & -> & Hf & Ht & Hd).
  exists w'. by rewrite mret_run.
Qed.

Lemma dem_download_tile_spec (env : Env) (dem_dir dem_format dem_year : string)
    (zips unzips : list string) (tile : string) (w : World) :
  dem_supported dem_format dem_year ->
  let archive := dem_archive dem_dir dem_format dem_year tile in
  exists w',
    dem_download_tile env dem_dir dem_format dem_year (zips, unzips) tile w
    = (w', Ret ((zips ++ [archive])%list,
                (unzips ++ member_paths env dem_dir archive)%list)) /\
    files w' = files w ∪ {[archive]} ∪ list_to_set (member_paths env dem_dir archive) /\
    tiles_obj w' = tiles_obj w /\
    downloads (trace w') =
      (downloads (trace w) ++
       if bool_decide (archive ∈ files w) then []
       else [HttpGet (dem_url dem_format dem_year tile); WriteFile archive])%list.
Proof.
  intros [Hfmt Hyear] archive. unfold dem_download_tile.
  fold (dem_archive dem_dir dem_format dem_year tile). fold archive.
  assert (Hf : String.eqb dem_format "dgm" || String.eqb dem_format "dom" = true)
    by (destruct Hfmt as [->| ->]; reflexivity).
  rewrite Hf.
  assert (Hi : (if String.eqb dem_year "2010-2013" then Some "2_"
                else if String.eqb dem_year "2014-2019" || String.eqb dem_year "2020-2025"
                     then Some "1_" else None)
               = Some (if String.eqb dem_year "2010-2013" then "2_" else "1_"))
    by (destruct Hyear as [->|[->| ->]]; reflexivity).
  rewrite Hi. fold (dem_url dem_format dem_year tile).
  rewrite mbind_run, mret_run. cbv beta iota. rewrite mbind_run. unfold isfile.
  destruct (bool_decide (archive ∈ files w)) eqn:Hin.
  - rewrite mbind_run.
    destruct (unzip_all_spec env archive dem_dir w) as (w' & -> & Hfs & Ht & Hd).
    exists w'. rewrite mret_run. split_and!; [done| |done|].
    + apply bool_decide_eq_true in Hin. rewrite Hfs. set_solver.
    + by rewrite app_nil_r.
  - run_monad.
    match goal with |- context [unzip_all env archive dem_dir ?w1] =>
      destruct (unzip_all_spec env archive dem_dir w1) as (w' & Hrun & Hfs & Ht & Hd)
    end.
    run_monad. rewrite Hrun. exists w'. split_and!; [done| |done|].
    + rewrite Hfs. set_solver.
    + rewrite Hd. rewrite !downloads_app. simpl. by rewrite <- app_assoc.
Qed.
Lemma dem_download_fold (env : Env) (dem_dir dem_format dem_year : string)
    (tiles zips unzips : list string) (w : World) :
  dem_supported dem_format dem_year ->
  exists w' fetched,
    fold_m (dem_download_tile env dem_dir dem_format dem_year) tiles (zips, unzips) w
    = (w', Ret ((zips ++ map (dem_archive dem_dir dem_format dem_year) tiles)%list,
                (unzips ++ dem_member_paths env dem_dir dem_format dem_year tiles)%list)) /\
    files w' = files w
               ∪ list_to_set (map (dem_archive dem_dir dem_format dem_year) tiles)
               ∪ list_to_set (dem_member_paths env dem_dir dem_format dem_year tiles) /\
    tiles_obj w' = tiles_obj w /\
    downloads (trace w') = (downloads (trace w) ++ fetched)%list /\
    Forall (fun e => exists tile,
                tile ∈ tiles /\
                (dem_archive dem_dir dem_format dem_year tile ∉ files w) /\
                (e = HttpGet (dem_url dem_format dem_year tile) \/
                 e = WriteFile (dem_archive dem_dir dem_format dem_year tile)))
           fetched.
Proof.
  intros Hsup. revert zips unzips w.
  induction tiles as [|t tiles IH]; intros zips unzips w.
  - exists w, []. unfold dem_member_paths. simpl. rewrite !app_nil_r.
    split_and!; [done| |done..]. set_solver.
  - rewrite fold_m_cons.
    destruct (dem_download_tile_spec env dem_dir dem_format dem_year zips unzips t w Hsup)
      as (w1 & -> & Hf1 & Ht1 & Hd1).
    destruct (IH (zips ++ [dem_archive dem_dir dem_format dem_year t])%list
                 (unzips ++ member_paths env dem_dir
                              (dem_archive dem_dir dem_format dem_year t))%list w1)
      as (w' & fetched & -> & Hf & Ht & Hd & Hall).
    eexists w', _. split_and!.
    + unfold dem_member_paths. simpl. by rewrite <- !app_assoc.
    + rewrite Hf, Hf1. unfold dem_member_paths. simpl.
      rewrite list_to_set_app_L. set_solver.
    + congruence.
    + rewrite Hd, Hd1, <- app_assoc. reflexivity.
    + apply Forall_app. split.
      * destruct (bool_decide _) eqn:Hin; [constructor|].
        apply bool_decide_eq_false in Hin.
        repeat constructor; exists t; (split; [apply elem_of_cons; by left|]);
          (split; [done|]); tauto.
      * eapply Forall_impl; [exact Hall|]. simpl.
        intros e (tile & Hin & Hnot & He). exists tile.
        split; [apply elem_of_cons; by right|]. split; [|done].
        rewrite Hf1 in Hnot. set_solver.
Qed.



(** X2.  When the archive of every tile is already on disk, [dem_download]
    fetches and writes nothing: the trace gains no request and no archive
    write. *)
Theorem dem_download_cached (env : Env) (dem_dir dem_format dem_year : string)
    (tiles : list string) (w : World) :
  dem_supported dem_format dem_year ->
  (forall tile, tile ∈ tiles ->
                dem_archive dem_dir dem_format dem_year tile ∈ files w) ->
  downloads (trace (final_state (dem_download env dem_dir tiles dem_format dem_year w)))
  = downloads (trace w).
Proof.
  intros Hsup Hall. unfold dem_download.
  destruct (dem_download_fold env dem_dir dem_format dem_year tiles [] [] w Hsup)
    as (w' & fetched & -> & _ & _ & Hd & Hfetched).
  unfold final_state. simpl. rewrite Hd.
  destruct fetched as [|e fetched]; [by rewrite app_nil_r|].
  apply Forall_cons in Hfetched as [(tile & Hin & Hnot & _) _].
  destruct (Hnot (Hall tile Hin)).
Qed.

Lemma dem_download_cached_witness :
  dem_supported "dom" "2010-2013" /\
  (forall tile, tile ∈ ["4_6"] ->
     dem_archive "dem" "dom" "2010-2013" tile
     ∈ files (MkWorld [] {["dem/4_6_dom2010-2013.zip"]} [])) /\
  downloads (trace (final_state
     (dem_download demo_env "dem" ["4_6"] "dom" "2010-2013"
        (MkWorld [] {["dem/4_6_dom2010-2013.zip"]} []))))
  = [].
Proof.
  assert (H : dem_supported "dom" "2010-2013").
  { split; [by right|]. by left. }
  assert (Hc : forall tile, tile ∈ ["4_6"] ->
                 dem_archive "dem" "dom" "2010-2013" tile
                 ∈ files (MkWorld [] {["dem/4_6_dom2010-2013.zip"]} [])).
  { intros tile ->%list_elem_of_singleton.
    apply (bool_decide_unpack _). by vm_compute. }
  split; [exact H|]. split; [exact Hc|].
  apply (dem_download_cached demo_env "dem" "dom" "2010-2013" ["4_6"]
           (MkWorld [] {["dem/4_6_dom2010-2013.zip"]} []) H Hc).
Defined.

(** X3.  Running [dem_download] a second time on the state the first run
    left returns the same lists, fetches nothing more and leaves the same
    files. *)
Theorem dem_download_rerun (env : Env) (dem_dir dem_format dem_year : string)
    (tiles : list string) (w : World) :
  dem_supported dem_format dem_year ->
  let r1 := dem_download env dem_dir tiles dem_format dem_year w in
  let r2 := dem_download env dem_dir tiles dem_format dem_year (final_state r1) in
  result r2 = result r1 /\
  downloads (trace (final_state r2)) = downloads (trace (final_state r1)) /\
  files (final_state r2) = files (final_state r1).
Proof.
  intros Hsup r1 r2. subst r1 r2. unfold dem_download.
  destruct (dem_download_fold env dem_dir dem_format dem_year tiles [] [] w Hsup)
    as (w1 & f1 & -> & Hf1 & _ & _ & _).
  unfold final_state at 1 3 5. simpl fst.
  destruct (dem_download_fold env dem_dir dem_format dem_year tiles [] [] w1 Hsup)
    as (w2 & f2 & -> & Hf2 & _ & Hd2 & Hfetched).
  unfold result, final_state. simpl. split_and!; [done| |].
  - rewrite Hd2. destruct f2 as [|e f2]; [by rewrite app_nil_r|].
    apply Forall_cons in Hfetched as [(tile & Hin & Hnot & _) _].
    destruct Hnot. rewrite Hf1, !elem_of_union, !elem_of_list_to_set.
    left. right. by apply list_elem_of_fmap_2.
  - rewrite Hf2, Hf1. set_solver.
Qed.

Lemma dem_download_rerun_witness :
  dem_supported "dgm" "2020-2025" /\
  downloads (trace (final_state
     (dem_download demo_env "dem" ["4_6"] "dgm" "2020-2025"
        (final_state (dem_download demo_env "dem" ["4_6"] "dgm" "2020-2025"
                        (demo_world []))))))
  = downloads (trace (final_state
     (dem_download demo_env "dem" ["4_6"] "dgm" "2020-2025" (demo_world [])))).
Proof.
  assert (H : dem_supported "dgm" "2020-2025").
  { split; [by left|]. right. by right. }
  split; [exact H|].
  apply (dem_download_rerun demo_env "dem" "dgm" "2020-2025" ["4_6"] (demo_world []) H).
Defined.
(** X4.  What [dem_download] does outside the supported arguments: with a
    format other than dgm and dom the first tile whose archive is not on disk
    makes it raise for the unbound name [request], before any request is sent;
    with such a format and an unknown vintage label a tile whose archive is on
    disk is still unpacked; with dgm or dom and an unknown vintage label the
    first tile raises for the unbound name [indicator_number]. *)
Theorem dem_download_unbound_names (env : Env) (dem_dir dem_format dem_year : string)
    (tile : string) (tiles : list string) (w : World) :
  let archive := dem_archive dem_dir dem_format dem_year tile in
  (dem_format <> "dgm" -> dem_format <> "dom" -> archive ∉ files w ->
   dem_download env dem_dir (tile :: tiles) dem_format dem_year w
   = (w, Raise (UnboundLocalError "request"))) /\
  (dem_format <> "dgm" -> dem_format <> "dom" -> archive ∈ files w ->
   result (dem_download env dem_dir [tile] dem_format dem_year w)
   = Ret ([archive], member_paths env dem_dir archive)) /\
  ((dem_format = "dgm" \/ dem_format = "dom") ->
   dem_year <> "2010-2013" -> dem_year <> "2014-2019" -> dem_year <> "2020-2025" ->
   dem_download env dem_dir (tile :: tiles) dem_format dem_year w
   = (w, Raise (UnboundLocalError "indicator_number"))).
Proof.
  intros archive. split_and!.
  - intros H1%String.eqb_neq H2%String.eqb_neq Hnot.
    apply (bool_decide_eq_false_2 _) in Hnot.
    unfold dem_download. rewrite fold_m_cons. unfold dem_download_tile.
    fold (dem_archive dem_dir dem_format dem_year tile). fold archive.
    rewrite H1, H2. simpl orb. rewrite mbind_run, mret_run. cbv beta iota.
    rewrite mbind_run. unfold isfile. by rewrite Hnot.
  - intros H1%String.eqb_neq H2%String.eqb_neq Hin.
    apply (bool_decide_eq_true_2 _) in Hin.
    unfold dem_download. rewrite fold_m_cons. unfold dem_download_tile.
    fold (dem_archive dem_dir dem_format dem_year tile). fold archive.
    rewrite H1, H2. simpl orb. rewrite mbind_run, mret_run. cbv beta iota.
    rewrite mbind_run. unfold isfile. rewrite Hin. rewrite mbind_run.
    destruct (unzip_all_spec env archive dem_dir w) as (w' & -> & _).
    by rewrite mret_run.
  - intros Hfmt H1%String.eqb_neq H2%String.eqb_neq H3%String.eqb_neq.
    unfold dem_download. rewrite fold_m_cons. unfold dem_download_tile.
    rewrite H1, H2, H3. simpl orb.
    assert (Hf : String.eqb dem_format "dgm" || String.eqb dem_format "dom" = true)
      by (destruct Hfmt as [->| ->]; reflexivity).
    rewrite Hf. by rewrite mbind_run.
Qed.

Lemma dem_download_unbound_names_witness :
  "xyz" <> "dgm" /\ "xyz" <> "dom" /\
  (dem_archive "dem" "xyz" "2014-2019" "4_6" ∉ files (demo_world [])) /\
  dem_download demo_env "dem" ["4_6"; "5_7"] "xyz" "2014-2019" (demo_world [])
  = (demo_world [], Raise (UnboundLocalError "request")).
Proof.
  assert (H : dem_archive "dem" "xyz" "2014-2019" "4_6" ∉ files (demo_world [])).
  { apply not_elem_of_empty. }
  split; [discriminate|]. split; [discriminate|]. split; [exact H|].
  apply (dem_download_unbound_names demo_env "dem" "xyz" "2014-2019" "4_6" ["5_7"]
           (demo_world [])); [discriminate|discriminate|exact H].
Defined.

(** ** The grouping correction: repetition and exceptions *)

Lemma spec_rename_well_formed (tile : string) :
  well_formed tile -> well_formed (spec_rename tile).
Proof.
  intros [[x y] Hp]. unfold spec_rename. rewrite Hp.
  destruct (Z.odd x || Z.odd y); [|by eexists].
  destruct (spec_anchor x y) as [ax ay]. unfold well_formed.
  rewrite parse_tile_name. by eexists.
Qed.

Lemma group_correction_fixed (tiles : list string) :
  Forall well_formed tiles ->
  group_correction (final_state (group_correction tiles))
  = (final_state (group_correction tiles), Ret tt).
Proof.
  intros Hwf.
  destruct (group_correction_spec _ Hwf) as (t' & Hrun & Hmem). rewrite Hrun.
  unfold final_state. simpl.
  unfold group_correction. rewrite mbind_run. unfold get.
  apply correction_settled. apply Forall_forall. intros u Hu.
  apply Hmem, list_elem_of_fmap in Hu as (t & -> & Ht).
  split; [|apply spec_rename_settled].
  apply spec_rename_well_formed. by eapply Forall_forall in Hwf.
Qed.

(** X5.  On well-formed names the grouping correction is idempotent: run
    again on the list it left, it ends normally and changes nothing. *)
Theorem group_correction_idempotent (tiles : list string) :
  Forall well_formed tiles ->
  let tiles' := final_state (group_correction tiles) in
  group_correction tiles' = (tiles', Ret tt).
Proof. intros Hwf tiles'. by apply group_correction_fixed. Qed.

Lemma group_correction_idempotent_witness :
  Forall well_formed ["1_1"; "0_0"; "3_2"] /\
  group_correction (final_state (group_correction ["1_1"; "0_0"; "3_2"]))
  = (final_state (group_correction ["1_1"; "0_0"; "3_2"]), Ret tt).
Proof.
  assert (H : Forall well_formed ["1_1"; "0_0"; "3_2"]).
  { repeat constructor; eexists; vm_compute; reflexivity. }
  split; [exact H|]. apply (group_correction_idempotent _ H).
Defined.




(** ** The lookup table: order of the rows *)

Lemma first_row_Some (lookup : list row) (tile : string) (r : row) :
  first_row lookup tile = Some r -> r ∈ lookup /\ row_tilename r = tile.
Proof.
  unfold first_row. intros [Hin Heq]%find_some.
  split; [by apply list_elem_of_In|by apply String.eqb_eq].
Qed.

Lemma filter_year_elem (year : Z) (lookup : list row) (r : row) :
  r ∈ filter_year year lookup <-> r ∈ lookup /\ row_year r = year.
Proof.
  unfold filter_year. rewrite list_elem_of_In, filter_In, <- list_elem_of_In.
  by rewrite Z.eqb_eq.
Qed.

Lemma match_ids_ext (lookup1 lookup2 : list row) (tiles : list string) :
  (forall tile, tile ∈ tiles ->
     row_id <$> first_row lookup1 tile = row_id <$> first_row lookup2 tile) ->
  match_ids lookup1 tiles [] = match_ids lookup2 tiles [].
Proof.
  induction tiles as [|t tiles IH]; intros Hext; [done|].
  simpl. pose proof (tile_match_first lookup1 t) as H1.
  pose proof (tile_match_first lookup2 t) as H2.
  pose proof (Hext t ltac:(apply elem_of_cons; by left)) as Ht.
  rewrite <- H1, <- H2 in Ht.
  assert (IH' : match_ids lookup1 tiles [] = match_ids lookup2 tiles [])
    by (apply IH; intros tile Hin; apply Hext, elem_of_cons; by right).
  destruct (tile_match lookup1 t) as [|r1 ?], (tile_match lookup2 t) as [|r2 ?];
    simpl in Ht; try done.
  injection Ht as Hid. rewrite (match_ids_acc lookup1), (match_ids_acc lookup2).
  by rewrite Hid, IH'.
Qed.

Lemma first_row_perm (year : Z) (lookup1 lookup2 : list row) (tile : string) :
  lookup1 ≡ₚ lookup2 -> key_unique lookup1 ->
  row_id <$> first_row (filter_year year lookup1) tile
  = row_id <$> first_row (filter_year year lookup2) tile.
Proof.
  intros Hperm Huniq.
  destruct (first_row (filter_year year lookup1) tile) as [r1|] eqn:H1,
           (first_row (filter_year year lookup2) tile) as [r2|] eqn:H2; simpl.
  - apply first_row_Some in H1 as [[Hin1 Hy1]%filter_year_elem Ht1].
    apply first_row_Some in H2 as [[Hin2 Hy2]%filter_year_elem Ht2].
    rewrite <- Hperm in Hin2. f_equal. apply Huniq; congruence.
  - apply first_row_Some in H1 as [[Hin1 Hy1]%filter_year_elem Ht1].
    rewrite Hperm in Hin1.
    destruct (proj1 (first_row_None _ _) H2 r1); [|done].
    by apply filter_year_elem.
  - apply first_row_Some in H2 as [[Hin2 Hy2]%filter_year_elem Ht2].
    rewrite <- Hperm in Hin2.
    destruct (proj1 (first_row_None _ _) H1 r2); [|done].
    by apply filter_year_elem.
  - done.
Qed.

(** X7.  When every pair of year and tile name has at most one ID in the
    lookup table, the order of its rows does not matter: with the rows in any
    other order the resolver leaves the same state and returns the same IDs or
    raises the same exception. *)
Theorem op_resolve_ids_row_order (env1 env2 : Env) (year : Z) (id_file : string)
    (w : World) :
  read_csv env1 id_file ≡ₚ read_csv env2 id_file ->
  key_unique (read_csv env1 id_file) ->
  op_resolve_ids env1 year id_file w = op_resolve_ids env2 year id_file w.
Proof.
  intros Hperm Huniq. rewrite !op_resolve_ids_run. cbv zeta. f_equal.
  destruct (result _); [|done].
  apply match_ids_ext. intros tile _. by apply first_row_perm.
Qed.

Lemma op_resolve_ids_row_order_witness :
  read_csv (MkEnv (fun _ _ => []) (fun _ => [Row 7 2015 "0_0"; Row 9 2015 "2_2"])
              (fun _ => []) (fun _ => None)) "ids"
  ≡ₚ read_csv (MkEnv (fun _ _ => []) (fun _ => [Row 9 2015 "2_2"; Row 7 2015 "0_0"])
                 (fun _ => []) (fun _ => None)) "ids" /\
  result (op_resolve_ids
            (MkEnv (fun _ _ => []) (fun _ => [Row 7 2015 "0_0"; Row 9 2015 "2_2"])
               (fun _ => []) (fun _ => None)) 2015 "ids" (demo_world ["3_3"; "1_0"]))
  = result (op_resolve_ids
              (MkEnv (fun _ _ => []) (fun _ => [Row 9 2015 "2_2"; Row 7 2015 "0_0"])
                 (fun _ => []) (fun _ => None)) 2015 "ids" (demo_world ["3_3"; "1_0"])).
Proof.
  assert (Hperm : [Row 7 2015 "0_0"; Row 9 2015 "2_2"]
                  ≡ₚ [Row 9 2015 "2_2"; Row 7 2015 "0_0"]) by apply perm_swap.
  assert (Huniq : key_unique [Row 7 2015 "0_0"; Row 9 2015 "2_2"]).
  { intros r1 r2 H1 H2 Hy Ht.
    rewrite !elem_of_cons, elem_of_nil in H1, H2.
    destruct H1 as [->|[->|[]]], H2 as [->|[->|[]]]; done. }
  split; [exact Hperm|].
  exact (f_equal result
           (op_resolve_ids_row_order
              (MkEnv (fun _ _ => []) (fun _ => [Row 7 2015 "0_0"; Row 9 2015 "2_2"])
                 (fun _ => []) (fun _ => None))
              (MkEnv (fun _ _ => []) (fun _ => [Row 9 2015 "2_2"; Row 7 2015 "0_0"])
                 (fun _ => []) (fun _ => None))
              2015 "ids" (demo_world ["3_3"; "1_0"]) Hperm Huniq)).
Defined.

(** ** Orthophoto archives: cache and repetition *)

Lemma op_download_id_spec (env : Env) (op_dir : string) (zips unzips : list string)
    (tile_id : Z) (w : World) :
  let archive := op_archive op_dir tile_id in
  exists w',
    op_download_id env op_dir (zips, unzips) tile_id w
    = (w', Ret ((zips ++ [archive])%list,
                (unzips ++ member_paths env op_dir archive)%list)) /\
    files w' = files w ∪ {[archive]} ∪ list_to_set (member_paths env op_dir archive) /\
    tiles_obj w' = tiles_obj w /\
    downloads (trace w') =
      (downloads (trace w) ++
       if bool_decide (archive ∈ files w) then []
       else [HttpGet (op_endpoint +:+ Py.str tile_id); WriteFile archive])%list.
Proof.
  intros archive. unfold op_download_id.
  fold (op_archive op_dir tile_id). fold archive.
  rewrite mbind_run. unfold isfile.
  destruct (bool_decide (archive ∈ files w)) eqn:Hin.
  - rewrite mbind_run.
    destruct (unzip_all_spec env archive op_dir w) as (w' & -> & Hfs & Ht & Hd).
    exists w'. rewrite mret_run. split_and!; [done| |done|].
    + apply bool_decide_eq_true in Hin. rewrite Hfs. set_solver.
    + by rewrite app_nil_r.
  - run_monad.
    match goal with |- context [unzip_all env archive op_dir ?w1] =>
      destruct (unzip_all_spec env archive op_dir w1) as (w' & Hrun & Hfs & Ht & Hd)
    end.
    run_monad. rewrite Hrun. exists w'. split_and!; [done| |done|].
    + rewrite Hfs. set_solver.
    + rewrite Hd. rewrite !downloads_app. simpl. by rewrite <- app_assoc.
Qed.

Lemma op_download_fold (env : Env) (op_dir : string) (ids : list Z)
    (zips unzips : list string) (w : World) :
  exists w' unzips' fetched,
    fold_m (op_download_id env op_dir) ids (zips, unzips) w
    = (w', Ret ((zips ++ map (op_archive op_dir) ids)%list, unzips')) /\
    unzips' = (unzips ++ concat (map (fun i => member_paths env op_dir
                                                 (op_archive op_dir i)) ids))%list /\
    files w' = files w ∪ list_to_set (map (op_archive op_dir) ids)
               ∪ list_to_set (concat (map (fun i => member_paths env op_dir
                                                      (op_archive op_dir i)) ids)) /\
    tiles_obj w' = tiles_obj w /\
    downloads (trace w') = (downloads (trace w) ++ fetched)%list /\
    Forall (fun e => exists i,
                i ∈ ids /\ (op_archive op_dir i ∉ files w) /\
                (e = HttpGet (op_endpoint +:+ Py.str i) \/
                 e = WriteFile (op_archive op_dir i)))
           fetched.
Proof.
  revert zips unzips w. induction ids as [|i ids IH]; intros zips unzips w.
  - exists w, unzips, []. simpl. rewrite !app_nil_r.
    split_and!; [done..| |done|done|done]. set_solver.
  - rewrite fold_m_cons.
    destruct (op_download_id_spec env op_dir zips unzips i w)
      as (w1 & -> & Hf1 & Ht1 & Hd1).
    destruct (IH (zips ++ [op_archive op_dir i])%list
                 (unzips ++ member_paths env op_dir (op_archive op_dir i))%list w1)
      as (w' & u' & fetched & -> & -> & Hf & Ht & Hd & Hall).
    eexists w', _, _. split_and!.
    + simpl. by rewrite <- ?app_assoc.
    + simpl. by rewrite <- ?app_assoc.
    + rewrite Hf, Hf1. simpl. rewrite list_to_set_app_L. set_solver.
    + congruence.
    + rewrite Hd, Hd1, <- app_assoc. reflexivity.
    + apply Forall_app. split.
      * destruct (bool_decide _) eqn:Hin; [constructor|].
        apply bool_decide_eq_false in Hin.
        repeat constructor; exists i; (split; [apply elem_of_cons; by left|]);
          (split; [done|]); tauto.
      * eapply Forall_impl; [exact Hall|]. simpl.
        intros e (j & Hin & Hnot & He). exists j.
        split; [apply elem_of_cons; by right|]. split; [|done].
        rewrite Hf1 in Hnot. set_solver.
Qed.

(** X8.  Calling [op_download] again with the list object and the files the
    first call left (any year after 2018, or well-formed names): the second
    call returns or raises what the first did, leaves the tile list and the
    files as they are and fetches nothing. *)
Theorem op_download_rerun (env : Env) (op_dir : string) (year : Z) (id_file : string)
    (w : World) :
  2018 < year \/ Forall well_formed (tiles_obj w) ->
  let r1 := op_download env op_dir year id_file w in
  let r2 := op_download env op_dir year id_file (final_state r1) in
  result r2 = result r1 /\
  tiles_obj (final_state r2) = tiles_obj (final_state r1) /\
  files (final_state r2) = files (final_state r1) /\
  downloads (trace (final_state r2)) = downloads (trace (final_state r1)).
Proof.
  intros Hcase r1 r2. subst r1 r2. unfold op_download.
  rewrite (mbind_run (op_resolve_ids env year id_file) _ w).
  rewrite op_resolve_ids_run. cbv zeta.
  set (c := if year <=? 2018 then group_correction (tiles_obj w)
            else (tiles_obj w, Ret tt)).
  assert (Hagain : (if year <=? 2018 then group_correction (final_state c)
                    else (final_state c, Ret tt)) = (final_state c, result c)).
  { subst c. destruct (Z.leb_spec year 2018); [|done].
    destruct Hcase as [?|Hwf]; [lia|].
    rewrite (group_correction_fixed _ Hwf).
    by destruct (group_correction_spec _ Hwf) as (t' & -> & _). }
  remember (match result c with
            | Ret _ => match_ids (filter_year year (read_csv env id_file))
                         (final_state c) []
            | Raise e => Raise e
            end) as o eqn:Ho.
  assert (Hsecond : forall w1, tiles_obj w1 = final_state c ->
            op_resolve_ids env year id_file w1 = (w1, o)).
  { intros w1 Hw1. rewrite op_resolve_ids_run. cbv zeta. rewrite Hw1, Hagain.
    change (result (final_state c, result c)) with (result c).
    change (final_state (final_state c, result c)) with (final_state c).
    by rewrite <- Hw1 at 1; rewrite set_tiles_same, Ho. }
  clear Ho. destruct o as [ids|e].
  - destruct (op_download_fold env op_dir ids [] [] (set_tiles (final_state c) w))
      as (w1 & u1 & f1 & -> & -> & Hf1 & Ht1 & _ & _).
    change (final_state (w1, ?x)) with w1.
    rewrite (mbind_run (op_resolve_ids env year id_file) _ w1).
    rewrite (Hsecond w1 Ht1).
    destruct (op_download_fold env op_dir ids [] [] w1)
      as (w2 & u2 & f2 & -> & -> & Hf2 & Ht2 & Hd2 & Hfetched).
    unfold result, final_state. simpl. split_and!; [done..| |].
    + rewrite Hf2, Hf1. set_solver.
    + rewrite Hd2. destruct f2 as [|ev f2]; [by rewrite app_nil_r|].
      apply Forall_cons in Hfetched as [(i & Hin & Hnot & _) _].
      destruct Hnot. rewrite Hf1, !elem_of_union, !elem_of_list_to_set.
      left. right. by apply list_elem_of_fmap_2.
  - change (final_state (set_tiles (final_state c) w, ?x))
      with (set_tiles (final_state c) w).
    rewrite (mbind_run (op_resolve_ids env year id_file) _ (set_tiles _ w)).
    rewrite (Hsecond (set_tiles (final_state c) w) eq_refl). done.
Qed.

Lemma op_download_rerun_witness :
  (2018 < 2015 \/ Forall well_formed (tiles_obj (demo_world ["1_1"]))) /\
  downloads (trace (final_state
     (op_download demo_env "op" 2015 "ids"
        (final_state (op_download demo_env "op" 2015 "ids" (demo_world ["1_1"]))))))
  = downloads (trace (final_state
     (op_download demo_env "op" 2015 "ids" (demo_world ["1_1"])))).
Proof.
  assert (H : 2018 < 2015 \/ Forall well_formed (tiles_obj (demo_world ["1_1"]))).
  { right. repeat constructor. eexists. vm_compute. reflexivity. }
  split; [exact H|].
  apply (op_download_rerun demo_env "op" 2015 "ids" (demo_world ["1_1"]) H).
Defined.

(** ** Deleting nested lists of paths *)

Lemma pyobj_nested_ind (P : pyobj -> Prop) :
  (forall path, P (PStr path)) ->
  (forall items, Forall P items -> P (PList items)) ->
  forall o, P o.
Proof.
  intros Hstr Hlist. fix IH 1. intros [path|items]; [apply Hstr|].
  apply Hlist. induction items as [|o items IHitems]; constructor;
    [apply IH|exact IHitems].
Qed.

Lemma for_each_app {S A} (body : A -> M S unit) (l1 l2 : list A) (s : S) :
  for_each body (l1 ++ l2) s =
    match for_each body l1 s with
    | (s', Ret _) => for_each body l2 s'
    | (s', Raise e) => (s', Raise e)
    end.
Proof.
  revert s. induction l1 as [|a l1 IH]; intros s; [done|].
  simpl app. rewrite !for_each_cons. destruct (body a s) as [s' [[]|e]]; [|done].
  apply IH.
Qed.

(** Nesting does not matter: deleting an argument is deleting the paths it
    holds, one after the other. *)
Lemma delete_one_flat (o : pyobj) (w : World) :
  delete_one o w = for_each (fun p => delete_one (PStr p)) (paths_of o) w.
Proof.
  revert w. induction o as [path|items IH] using pyobj_nested_ind; intros w.
  - simpl paths_of. rewrite for_each_cons.
    by destruct (delete_one (PStr path) w) as [w' [[]|e]].
  - rewrite delete_one_list. simpl paths_of. revert w.
    induction IH as [|o items Ho _ IHitems]; intros w; [done|].
    rewrite for_each_cons. simpl. rewrite for_each_app, <- Ho.
    destruct (delete_one o w) as [w' [[]|e]]; [|done]. apply IHitems.
Qed.

Lemma delete_path_run (path : string) (w : World) :
  delete_one (PStr path) w =
    if bool_decide (path ∈ files w)
    then (set_files (files w ∖ {[path]}) w, Ret tt)
    else (MkWorld (tiles_obj w) (files w) (trace w ++ [Warning path]), Ret tt).
Proof.
  simpl. unfold mbind, M_bind, bind, isfile. by destruct (bool_decide _).
Qed.

Lemma delete_flat_spec (paths : list string) (w : World) :
  exists w' warned,
    for_each (fun p => delete_one (PStr p)) paths w = (w', Ret tt) /\
    files w' = files w ∖ list_to_set paths /\
    tiles_obj w' = tiles_obj w /\
    trace w' = (trace w ++ map Warning warned)%list /\
    (forall p, p ∈ warned -> p ∈ paths) /\
    (warned = [] <-> NoDup paths /\ forall p, p ∈ paths -> p ∈ files w).
Proof.
  revert w. induction paths as [|p paths IH]; intros w.
  - exists w, []. split_and!; [done| |done| |done|].
    + simpl. set_solver.
    + simpl. by rewrite app_nil_r.
    + split; [|done]. intros _. split; [constructor|].
      intros p Hp. by apply elem_of_nil in Hp.
  - rewrite for_each_cons, delete_path_run.
    destruct (bool_decide (p ∈ files w)) eqn:Hp.
    + apply bool_decide_eq_true in Hp.
      destruct (IH (set_files (files w ∖ {[p]}) w))
        as (w' & warned & -> & Hf & Ht & Htr & Hsub & Hiff).
      exists w', warned. split_and!; [done| |done|done| |].
      * rewrite Hf. simpl. set_solver.
      * intros q Hq. apply elem_of_cons. right. by apply Hsub.
      * rewrite Hiff. simpl files. rewrite NoDup_cons.
        split.
        -- intros [Hnd Hall]. split_and!; [|done|].
           ++ intros Hin. apply Hall in Hin. set_solver.
           ++ intros q [->|Hq]%elem_of_cons; [done|]. apply Hall in Hq. set_solver.
        -- intros [[Hnot Hnd] Hall]. split; [done|]. intros q Hq.
           apply elem_of_difference. split.
           ++ apply Hall, elem_of_cons. by right.
           ++ intros ->%elem_of_singleton. done.
    + apply bool_decide_eq_false in Hp.
      match goal with |- context [for_each _ paths ?w1] =>
        destruct (IH w1) as (w' & warned & -> & Hf & Ht & Htr & Hsub & Hiff) end.
      exists w', (p :: warned). split_and!; [done| |done| | |].
      * rewrite Hf. simpl. set_solver.
      * rewrite Htr. simpl. by rewrite <- app_assoc.
      * intros q [->|Hq]%elem_of_cons; apply elem_of_cons; [by left|].
        right. by apply Hsub.
      * split; [done|]. intros [_ Hall]. destruct Hp. apply Hall, elem_of_cons.
        by left.
Qed.

Lemma delete_residual_files_flat (lists : list pyobj) (w : World) :
  lists <> [] ->
  delete_residual_files lists w
  = for_each (fun p => delete_one (PStr p)) (concat (map paths_of lists)) w.
Proof.
  intros Hne. destruct lists as [|o [|o2 rest]]; [done| |].
  - simpl. rewrite app_nil_r. apply delete_one_flat.
  - unfold delete_residual_files. rewrite <- delete_one_list.
    apply (delete_one_flat (PList (o :: o2 :: rest))).
Qed.

(** X9.  Called with one argument or more, nested to any depth,
    [delete_residual_files] never raises; afterwards the files are those
    before without the paths the arguments hold, the tile list is untouched,
    and all it adds to the trace are warnings for paths among them.  Called
    without argument it raises [IndexError]. *)
Theorem delete_residual_files_removes (lists : list pyobj) (w : World) :
  lists <> [] ->
  let paths := concat (map paths_of lists) in
  exists w' warned,
    delete_residual_files lists w = (w', Ret tt) /\
    files w' = files w ∖ list_to_set paths /\
    tiles_obj w' = tiles_obj w /\
    trace w' = (trace w ++ map Warning warned)%list /\
    (forall p, p ∈ warned -> p ∈ paths) /\
    result (delete_residual_files [] w) = Raise (IndexError "tuple index out of range").
Proof.
  intros Hne paths. rewrite (delete_residual_files_flat lists w Hne). fold paths.
  destruct (delete_flat_spec paths w) as (w' & warned & Hrun & Hf & Ht & Htr & Hsub & _).
  exists w', warned. by split_and!.
Qed.

Lemma delete_residual_files_removes_witness :
  [PList [PStr "a"; PList [PStr "b"; PList []]]; PStr "c"] <> [] /\
  files (final_state
     (delete_residual_files [PList [PStr "a"; PList [PStr "b"; PList []]]; PStr "c"]
        (MkWorld [] {["a"; "b"; "d"]} [])))
  = {["a"; "b"; "d"]} ∖ list_to_set ["a"; "b"; "c"].
Proof.
  split; [discriminate|].
  destruct (delete_residual_files_removes
              [PList [PStr "a"; PList [PStr "b"; PList []]]; PStr "c"]
              (MkWorld [] {["a"; "b"; "d"]} []))
    as (w' & warned & Hrun & Hf & _); [discriminate|].
  rewrite Hrun. exact Hf.
Defined.

(** X10.  A deletion gives no warning exactly when every path the
    arguments hold is a file and is held only once: a path that is missing, or
    listed a second time, is warned about. *)
Theorem delete_residual_files_silent (lists : list pyobj) (w : World) :
  lists <> [] ->
  let paths := concat (map paths_of lists) in
  trace (final_state (delete_residual_files lists w)) = trace w
  <-> NoDup paths /\ forall p, p ∈ paths -> p ∈ files w.
Proof.
  intros Hne paths. rewrite (delete_residual_files_flat lists w Hne). fold paths.
  destruct (delete_flat_spec paths w) as (w' & warned & -> & _ & _ & Htr & _ & Hiff).
  unfold final_state. simpl. rewrite <- Hiff, Htr. split.
  - intros H. apply (f_equal length) in H. rewrite length_app, length_map in H.
    destruct warned; [done|simpl in H; lia].
  - intros ->. simpl. by rewrite app_nil_r.
Qed.

Lemma delete_residual_files_silent_witness :
  [PList [PStr "a"; PStr "a"]] <> [] /\
  (trace (final_state (delete_residual_files [PList [PStr "a"; PStr "a"]]
                         (MkWorld [] {["a"]} []))) = []
   <-> NoDup ["a"; "a"] /\ forall p, p ∈ ["a"; "a"] -> p ∈ ({["a"]} : gset string)).
Proof.
  assert (Hne : [PList [PStr "a"; PStr "a"]] <> []) by discriminate.
  split; [exact Hne|].
  exact (delete_residual_files_silent [PList [PStr "a"; PStr "a"]]
           (MkWorld [] {["a"]} []) Hne).
Defined.

Lemma cleanup_keep_spec (zip_list unzip_list intermediates keep : list string)
    (w : World) :
  exists w',
    cleanup zip_list unzip_list intermediates (Some keep) w = (w', Ret tt) /\
    tiles_obj w' = tiles_obj w /\
    forall p, p ∈ files w' <->
              p ∈ files w /\
              ~ marked_for_deletion zip_list unzip_list intermediates keep p.
Proof.
  unfold cleanup, determine_files_to_delete, marked_for_deletion.
  destruct (Py.contains "all" keep) eqn:Hall.
  - apply contains_spec in Hall. exists w. split_and!; [done..|].
    intros p. tauto.
  - assert (Hall' : "all" ∉ keep) by (intros H%contains_spec; congruence).
    match goal with |- context [delete_residual_files [paths_obj ?l]] =>
      destruct (delete_lists l w) as (w' & -> & Hf & Ht) end.
    exists w'. split_and!; [done..|]. intros p. rewrite Hf.
    rewrite elem_of_difference, elem_of_list_to_set.
    destruct (Py.contains "zip" keep) eqn:Hz,
             (Py.contains "unzipped" keep) eqn:Hu,
             (Py.contains "intermediate" keep) eqn:Hi;
      simpl; rewrite ?app_nil_r, ?elem_of_app, ?elem_of_nil;
      repeat match goal with
             | H : Py.contains _ _ = true |- _ => apply contains_spec in H
             | H : Py.contains ?x ?l = false |- _ =>
                 assert (x ∉ l) by (intros ?%contains_spec; congruence); clear H
             end; tauto.
Qed.

(** X11.  For a [keep_files] list the cleanup never raises, and a file is
    left afterwards exactly when it was there before and is not marked: it is
    marked when "all" is not in the list and it belongs to the archives, the
    unpacked files or the intermediates while the keyword of that list ("zip",
    "unzipped", "intermediate") is not in [keep_files].  Other words in
    [keep_files] change nothing. *)
Theorem cleanup_keeps (zip_list unzip_list intermediates keep : list string)
    (w : World) :
  exists w',
    cleanup zip_list unzip_list intermediates (Some keep) w = (w', Ret tt) /\
    tiles_obj w' = tiles_obj w /\
    forall p, p ∈ files w' <->
              p ∈ files w /\
              ~ marked_for_deletion zip_list unzip_list intermediates keep p.
Proof. apply cleanup_keep_spec. Qed.

(** ** Mosaic *)



(** ** The entry point: what is rejected and what is ignored *)

(** X13.  The entry point rejects a CRS other than the default, the format
    las and a year above 2025 before it touches anything: the world is as it
    was, nothing is fetched. *)
Theorem execute_rejects_early (env : Env) (root shapefile data_choice : string)
    (year : Z) (id_file dem_format : string) (data_dir dem_dir op_dir : option string)
    (keep_files : option (list string)) (out_name epsg : string) (w : World) :
  epsg <> default_epsg \/ dem_format = "las" \/ 2025 < year ->
  exists e,
    geoportalth_execute env root shapefile data_choice year id_file dem_format
      data_dir dem_dir op_dir keep_files out_name epsg w = (w, Raise e) /\
    (epsg <> default_epsg ->
     e = FunctionalityNotImplemented "Changing output's EPSG not yet possible.") /\
    (epsg = default_epsg -> dem_format = "las" ->
     e = FunctionalityNotImplemented "Las files not yet supported.") /\
    (epsg = default_epsg -> dem_format <> "las" ->
     e = ValueError unsupported_year_msg).
Proof.
  intros Hcase. unfold geoportalth_execute.
  destruct (String.eqb_spec epsg default_epsg) as [->|Hepsg]; simpl negb; cbv iota.
  - destruct (String.eqb_spec dem_format "las") as [->|Hlas].
    + eexists. split; [reflexivity|]. split_and!; done.
    + destruct Hcase as [?|[?|Hyear]]; [done..|].
      rewrite (dem_year_func_above year Hyear).
      eexists. split; [reflexivity|]. split_and!; done.
  - eexists. split; [reflexivity|]. split_and!; done.
Qed.

Lemma execute_rejects_early_witness :
  ("EPSG: 4326" <> default_epsg \/ "dgm" = "las" \/ 2025 < 2015) /\
  geoportalth_execute demo_env_covered "r" "aoi.shp" "dem" 2015 "ids" "dgm"
    None None None None "merged" "EPSG: 4326" (demo_world [])
  = (demo_world [],
     Raise (FunctionalityNotImplemented "Changing output's EPSG not yet possible.")).
Proof.
  assert (H : "EPSG: 4326" <> default_epsg \/ "dgm" = "las" \/ 2025 < 2015)
    by (left; discriminate).
  split; [exact H|].
  destruct (execute_rejects_early demo_env_covered "r" "aoi.shp" "dem" 2015 "ids" "dgm"
              None None None None "merged" "EPSG: 4326" (demo_world []) H)
    as (e & Hrun & He & _).
  rewrite Hrun, He; [reflexivity|discriminate].
Defined.

(** X14.  A [data_choice] other than dem, op and both is not rejected: the
    run fetches the grid, intersects, and ends normally without doing
    anything with the tiles it found. *)
Theorem execute_unknown_choice (env : Env) (root shapefile data_choice : string)
    (year : Z) (id_file dem_format : string) (data_dir dem_dir op_dir : option string)
    (keep_files : option (list string)) (out_name request dem_year : string)
    (tiles : list string) (w : World) :
  known_choice data_choice = false ->
  dem_format <> "las" ->
  dem_year_func year = Ret (request, dem_year) ->
  intersection env (default (Py.join root "data") data_dir) dem_year shapefile
  = Ret tiles ->
  geoportalth_execute env root shapefile data_choice year id_file dem_format
    data_dir dem_dir op_dir keep_files out_name default_epsg w
  = (set_tiles tiles
       (final_state (tile_grid_download env (default (Py.join root "data") data_dir)
                       dem_year request w)),
     Ret tt).
Proof.
  unfold known_choice. intros Hchoice Hlas%String.eqb_neq Hyear Hint.
  apply orb_false_elim in Hchoice as [[Hdem Hop]%orb_false_elim Hboth].
  unfold geoportalth_execute. rewrite String.eqb_refl.
  change (negb true) with false. cbv iota.
  rewrite Hlas, Hyear. cbv beta iota zeta. rewrite mbind_run.
  destruct (tile_grid_download_downloads env (default (Py.join root "data") data_dir)
              dem_year request w) as (w' & Hrun & _).
  rewrite Hrun, Hint. unfold final_state. simpl fst.
  rewrite mbind_run. unfold modify. by rewrite Hdem, Hop, Hboth.
Qed.

Lemma execute_unknown_choice_witness :
  known_choice "DEM" = false /\ "dgm" <> "las" /\
  result (geoportalth_execute demo_env_covered "r" "aoi.shp" "DEM" 2015 "ids" "dgm"
            None None None None "merged" default_epsg (demo_world []))
  = Ret tt.
Proof.
  split; [reflexivity|]. split; [discriminate|].
  rewrite (execute_unknown_choice demo_env_covered "r" "aoi.shp" "DEM" 2015 "ids" "dgm"
             None None None None "merged" url_2014_2019 "2014-2019" ["0_0"]
             (demo_world [])); [reflexivity..|discriminate|reflexivity|reflexivity].
Defined.

(** ** Grid download and intersection *)








(** ** The ID-table builder: empty ranges and resumption *)

Example dirname_basename :
  (path_dirname "/data/ids/list.txt", path_basename "/data/ids/list.txt",
   path_dirname "list.txt", path_dirname "/list.txt", path_dirname "a//b")
  = ("/data/ids", "list.txt", "", "/", "a").
Proof. reflexivity. Qed.

Lemma op_tilelist_creator_run (env : Env) (root id_file : string)
    (n_jobs start stop safe_step : Z) (w : World) :
  op_tilelist_creator env root id_file n_jobs start stop safe_step w =
    match Py.range start (stop + 1) safe_step with
    | None => (with_id_file (Py.join root id_file) w,
               Raise (ValueError "range() arg 3 must not be zero"))
    | Some currents =>
        for_each (run_batch env (Py.join root id_file) safe_step) currents
          (with_id_file (Py.join root id_file) w)
    end.
Proof.
  unfold op_tilelist_creator, with_id_file. unfold mbind at 1, M_bind, bind, isfile.
  destruct (bool_decide _); run_monad; by destruct (Py.range _ _ _).
Qed.

Lemma run_batch_empty (env : Env) (id_file : string) (safe_step current : Z)
    (w : World) :
  safe_step <= 0 -> run_batch env id_file safe_step current w = (w, Ret tt).
Proof.
  intros Hstep. unfold run_batch, batch_ids, Py.range1.
  replace (Z.to_nat (current + safe_step - current)) with 0%nat by lia.
  reflexivity.
Qed.

Lemma run_batches_empty (env : Env) (id_file : string) (safe_step : Z)
    (currents : list Z) (w : World) :
  safe_step <= 0 ->
  for_each (run_batch env id_file safe_step) currents w = (w, Ret tt).
Proof.
  intros Hstep. induction currents as [|c l IH]; [done|].
  by rewrite for_each_cons, run_batch_empty.
Qed.

(** X17.  When [op_tilelist_creator] asks for nothing: with a step of zero
    it raises [ValueError]; with a negative step every batch is empty and it
    ends normally; with a positive step and [start] beyond [end] there is no
    batch and it ends normally.  In all three cases the only thing it has done
    is to create the ID file with its header if the file was missing: no
    request is sent. *)
Theorem op_tilelist_creator_no_request (env : Env) (root id_file : string)
    (n_jobs start stop safe_step : Z) (w : World) :
  let r := op_tilelist_creator env root id_file n_jobs start stop safe_step w in
  let w' := with_id_file (Py.join root id_file) w in
  (safe_step = 0 -> r = (w', Raise (ValueError "range() arg 3 must not be zero"))) /\
  (safe_step < 0 -> r = (w', Ret tt)) /\
  (0 < safe_step -> stop < start -> r = (w', Ret tt)) /\
  head_requests (trace w') = head_requests (trace w).
Proof.
  intros r w'. subst r w'. rewrite op_tilelist_creator_run. split_and!.
  - intros ->. reflexivity.
  - intros Hneg. unfold Py.range.
    destruct (Z.eqb_spec safe_step 0); [lia|].
    apply run_batches_empty. lia.
  - intros Hpos Hlt. unfold Py.range.
    destruct (Z.eqb_spec safe_step 0); [lia|].
    destruct (Z.ltb_spec 0 safe_step); [|lia].
    assert (Hn : (stop + 1 - start + safe_step - 1) / safe_step < 1)
      by (apply Z.div_lt_upper_bound; lia).
    replace (Z.to_nat ((stop + 1 - start + safe_step - 1) / safe_step)) with 0%nat
      by lia.
    reflexivity.
  - unfold with_id_file. destruct (bool_decide _); [done|]. simpl.
    rewrite head_requests_app. simpl. by rewrite app_nil_r.
Qed.

Lemma op_tilelist_creator_no_request_witness :
  (-200) < 0 /\
  op_tilelist_creator demo_env "r" "ids" 8 300 100 (-200) (demo_world [])
  = (with_id_file "r/ids" (demo_world []), Ret tt).
Proof.
  split; [lia|].
  destruct (op_tilelist_creator_no_request demo_env "r" "ids" 8 300 100 (-200)
              (demo_world [])) as (_ & Hneg & _).
  apply Hneg. lia.
Defined.









(** ** The two versions of the script *)

(** X20.  The selector of the first version and the current one return the
    same grid for every year from 2010 to 2025 and both raise [ValueError]
    above 2025; below 2010 neither fails, and they differ: the first version
    gives the grid 2010-2013, the current one the grid 2014-2019. *)
Theorem dem_year_versions (year : Z) :
  (2010 <= year <= 2025 ->
   dem_year_func year = DEM_Year year /\ exists grid, DEM_Year year = Ret grid) /\
  (2025 < year ->
   exists m1 m2, DEM_Year year = Raise (ValueError m1) /\
                 dem_year_func year = Raise (ValueError m2)) /\
  (year < 2010 ->
   DEM_Year year = Ret (url_2010_2013, "2010-2013") /\
   dem_year_func year = Ret (url_2014_2019, "2014-2019")).
Proof.
  unfold dem_year_func, DEM_Year. split_and!; intros Hyear;
    repeat match goal with
           | |- context [?a <=? ?b] => destruct (Z.leb_spec a b); try lia
           | |- context [?a >=? ?b] => destruct (Z.geb_spec a b); try lia
           end; simpl; eauto.
Qed.

Lemma dem_year_versions_witness :
  2008 < 2010 /\
  DEM_Year 2008 = Ret (url_2010_2013, "2010-2013") /\
  dem_year_func 2008 = Ret (url_2014_2019, "2014-2019").
Proof.
  split; [lia|]. apply (dem_year_versions 2008). lia.
Defined.

Lemma legacy_match_ids_acc (lookup : list row) (tiles : list string) (acc : list Z) :
  legacy_match_ids lookup tiles acc =
    match legacy_match_ids lookup tiles [] with
    | Ret ids => Ret (acc ++ ids)%list
    | Raise e => Raise e
    end.
Proof.
  revert acc. induction tiles as [|t tiles IH]; intros acc; simpl.
  - by rewrite app_nil_r.
  - destruct (tile_match lookup t) as [|r ?]; [done|].
    rewrite (IH (acc ++ [row_id r])%list), (IH [row_id r]).
    destruct (legacy_match_ids lookup tiles []); [|done]. by rewrite <- app_assoc.
Qed.

(** X21.  The ID matching of the first version returns the same IDs as the
    current one whenever the current one returns; where the current one raises
    its missing-coverage exception, the first version fails with
    [IndexError]. *)
Theorem match_ids_versions (lookup : list row) (tiles : list string) :
  legacy_match_ids lookup tiles [] =
    match match_ids lookup tiles [] with
    | Ret idlist => Ret idlist
    | Raise _ => Raise (IndexError "index 0 is out of bounds for axis 0 with size 0")
    end /\
  (forall e, match_ids lookup tiles [] = Raise e ->
             e = MissingAerialCoverage missing_coverage_msg).
Proof.
  induction tiles as [|t tiles [IH1 IH2]]; [by split|]. simpl.
  destruct (tile_match lookup t) as [|r ?].
  - split; [done|]. by intros e [= <-].
  - rewrite legacy_match_ids_acc, match_ids_acc, IH1.
    by destruct (match_ids lookup tiles []) as [ids|e].
Qed.

(** ** The line written for a file name of the portal *)

Lemma append_assoc (a b c : string) : (a +:+ b) +:+ c = a +:+ (b +:+ c).
Proof.
  induction a as [|x a IH]; [done|]. rewrite !append_String. by rewrite IH.
Qed.

Lemma length_append (a b : string) :
  String.length (a +:+ b) = (String.length a + String.length b)%nat.
Proof.
  induction a as [|x a IH]; [done|]. rewrite append_String. simpl. by rewrite IH.
Qed.

Lemma drop_append (a b : string) : Py.drop (String.length a) (a +:+ b) = b.
Proof.
  induction a as [|x a IH]; [by destruct b|]. rewrite append_String. simpl. apply IH.
Qed.

Lemma take_append (a b : string) : Py.take (String.length a) (a +:+ b) = a.
Proof.
  induction a as [|x a IH]; [by destruct b|]. rewrite append_String. simpl.
  by rewrite IH.
Qed.

Lemma last_chars_append (a b : string) :
  Py.last_chars (String.length b) (a +:+ b) = b.
Proof.
  unfold Py.last_chars. rewrite length_append.
  replace (String.length a + String.length b - String.length b)%nat
    with (String.length a) by lia.
  apply drop_append.
Qed.

(** A text without the marker is one piece. *)
Lemma split_marker_absent (s : string) :
  Py.substring_of "_32" s = false -> Py.split_str "_32" s = [s].
Proof.
  unfold Py.split_str. induction s as [|c r IH]; [done|].
  intros H. simpl in H. apply orb_false_elim in H as [Hstart Hrest].
  change (Py.split_from "_32" 0 (String c r))
    with (if Py.startswith "_32" (String c r)
          then EmptyString :: Py.split_from "_32" 2 r
          else match Py.split_from "_32" 0 r with
               | p :: ps => String c p :: ps
               | [] => [String c EmptyString]
               end).
  simpl. rewrite Hstart. by rewrite (IH Hrest).
Qed.

Lemma startswith_cons (a b : ascii) (p s : string) :
  Py.startswith (String a p) (String b s) = Ascii.eqb a b && Py.startswith p s.
Proof. reflexivity. Qed.

Lemma startswith_marker_append (c : ascii) (p rest : string) :
  Py.startswith "_32" (String c p) = false ->
  Py.startswith "_32" (String c p +:+ "_32" +:+ rest) = false.
Proof.
  destruct p as [|c2 [|c3 p]];
    rewrite ?append_String, ?append_empty_l, !startswith_cons.
  - intros _. change (Ascii.eqb "3" "_") with false. apply andb_false_r.
  - intros _. change (Ascii.eqb "2" "_") with false.
    by rewrite andb_false_l, !andb_false_r.
  - intros H. rewrite ?startswith_cons in H.
    destruct (Ascii.eqb "_" c), (Ascii.eqb "3" c2), (Ascii.eqb "2" c3);
      simpl in *; done.
Qed.

(** The first marker cuts the name where it stands. *)
Lemma split_marker_first (pre rest : string) :
  Py.substring_of "_32" pre = false ->
  Py.split_str "_32" (pre +:+ "_32" +:+ rest) = pre :: Py.split_str "_32" rest.
Proof.
  unfold Py.split_str. induction pre as [|c r IH].
  - intros _. rewrite append_empty_l. reflexivity.
  - intros H. simpl in H. apply orb_false_elim in H as [Hstart Hrest].
    pose proof (startswith_marker_append c r rest Hstart) as Hs.
    rewrite (append_String c r) in Hs |- *.
    change (Py.split_from "_32" 0 (String c (r +:+ "_32" +:+ rest)))
      with (if Py.startswith "_32" (String c (r +:+ "_32" +:+ rest))
            then EmptyString :: Py.split_from "_32" 2 (r +:+ "_32" +:+ rest)
            else match Py.split_from "_32" 0 (r +:+ "_32" +:+ rest) with
                 | p :: ps => String c p :: ps
                 | [] => [String c EmptyString]
                 end).
    rewrite Hs. by rewrite (IH Hrest).
Qed.

Lemma replace_zip_suffix (y : string) :
  all_chars (fun c => negb (Ascii.eqb c ".")) y = true ->
  Py.replace ".zip" "" (y +:+ ".zip") = y.
Proof.
  unfold Py.replace. induction y as [|c r IH]; [done|].
  simpl all_chars. intros [Hc Hr]%andb_prop. rewrite append_String.
  change (Py.replace_from ".zip" "" 0 (String c (r +:+ ".zip")))
    with (if Py.startswith ".zip" (String c (r +:+ ".zip"))
          then "" +:+ Py.replace_from ".zip" "" 3 (r +:+ ".zip")
          else String c (Py.replace_from ".zip" "" 0 (r +:+ ".zip"))).
  assert (Hs : Py.startswith ".zip" (String c (r +:+ ".zip")) = false).
  { rewrite startswith_cons. apply negb_true_iff in Hc.
    by rewrite Ascii.eqb_sym, Hc. }
  rewrite Hs. by rewrite (IH Hr).
Qed.
(** X22.  The line for a file name of the portal.  For a name made of a
    prefix, the marker _32, an optional underscore, a tile name of eight
    characters, a middle part, a year of four characters and the ending .zip,
    in which the marker occurs only once, [save_entry] appends the line
    "ID,year,tile name" to the ID file and does nothing else. *)
Theorem save_entry_line_format (id_file pre sep t mid y : string) (index : Z)
    (w : World) :
  Py.substring_of "_32" pre = false ->
  Py.substring_of "_32" (sep +:+ t +:+ mid +:+ y +:+ ".zip") = false ->
  String.length t = 8%nat ->
  String.length y = 4%nat ->
  all_chars (fun c => negb (Ascii.eqb c ".")) y = true ->
  sep = "_" \/ (sep = "" /\ Py.startswith "_" t = false) ->
  save_entry id_file
    (Some (index, pre +:+ "_32" +:+ sep +:+ t +:+ mid +:+ y +:+ ".zip")) w
  = (with_line id_file (Py.str index +:+ "," +:+ y +:+ "," +:+ t) w, Ret tt).
Proof.
  intros Hpre Hrest Ht Hy Hdot Hsep. unfold save_entry.
  rewrite (split_marker_first pre _ Hpre), (split_marker_absent _ Hrest).
  assert (Hyear : Py.replace ".zip" ""
                    (Py.last_chars 8 (pre +:+ "_32" +:+ sep +:+ t +:+ mid +:+ y +:+ ".zip"))
                  = y).
  { replace (pre +:+ "_32" +:+ sep +:+ t +:+ mid +:+ y +:+ ".zip")
      with ((pre +:+ "_32" +:+ sep +:+ t +:+ mid) +:+ (y +:+ ".zip"))
      by (by rewrite !append_assoc).
    replace 8%nat with (String.length (y +:+ ".zip"))
      by (rewrite length_append, Hy; reflexivity).
    rewrite last_chars_append. by apply replace_zip_suffix. }
  rewrite Hyear. cbv zeta.
  assert (Htake : Py.take 8 (t +:+ mid +:+ y +:+ ".zip") = t)
    by (rewrite <- Ht; apply take_append).
  destruct Hsep as [->|[-> Hstart]].
  - rewrite append_String, append_empty_l.
    change (Py.startswith "_" (String "_" (t +:+ mid +:+ y +:+ ".zip"))) with true.
    cbv iota beta. unfold Py.slice. simpl Nat.sub. simpl Py.drop.
    by rewrite Htake.
  - rewrite append_empty_l.
    assert (Hs : Py.startswith "_" (t +:+ mid +:+ y +:+ ".zip") = false).
    { destruct t as [|c t']; [done|]. by rewrite append_String. }
    rewrite Hs. cbv iota beta. unfold Py.slice. simpl Nat.sub. simpl Py.drop.
    by rewrite Htake.
Qed.

Lemma save_entry_line_format_witness :
  Py.substring_of "_32" "dop20rgb" = false /\
  String.length "640_5630" = 8%nat /\
  String.length "2015" = 4%nat /\
  save_entry "ids" (Some (170123, "dop20rgb_32_640_5630_2_th_2015.zip")) (demo_world [])
  = (with_line "ids" "170123,2015,640_5630" (demo_world []), Ret tt).
Proof.
  split; [reflexivity|]. split; [reflexivity|]. split; [reflexivity|].
  apply (save_entry_line_format "ids" "dop20rgb" "_" "640_5630" "_2_th_" "2015" 170123
           (demo_world [])); try reflexivity. by left.
Defined.

(** ** A whole elevation run *)







Lemma match_ids_versions_witness :
  match_ids [Row 7 2015 "0_0"] ["0_0"; "2_2"] []
  = Raise (MissingAerialCoverage missing_coverage_msg) /\
  legacy_match_ids [Row 7 2015 "0_0"] ["0_0"; "2_2"] []
  = Raise (IndexError "index 0 is out of bounds for axis 0 with size 0").
Proof.
  destruct (match_ids_versions [Row 7 2015 "0_0"] ["0_0"; "2_2"]) as [Hold Hnew].
  split; [|exact Hold].
  assert (He : exists e, match_ids [Row 7 2015 "0_0"] ["0_0"; "2_2"] [] = Raise e)
    by (eexists; reflexivity).
  destruct He as [e He]. rewrite He. f_equal. exact (Hnew e He).
Defined.
